(** * MUSA accelerator adapter: a shallow embedding of
      [accelerator/musa_accelerator.py] and the properties of its
      device-name helpers, capability probes and lazy op-builder registry. *)

From Stdlib Require Import ZArith String Ascii List Bool Lia.
From Stdlib Require Import DecimalString DecimalPos DecimalZ.
From stdpp Require Import base option gmap strings list.

Local Open Scope string_scope.

(** ** Python strings *)

Module PyStr.

(** [s.startswith(p)] *)
Definition startswith (s p : string) : bool := String.prefix p s.

(** [s.endswith(suf)]: the last [len(suf)] characters of [s] are [suf]. *)
Definition endswith (s suf : string) : bool :=
  let n := String.length s in
  let k := String.length suf in
  if (k <=? n)%nat then String.eqb (substring (n - k) k s) suf else false.

(** ['{}'.format(i)] for an [int]: its decimal rendering. *)
Definition format_int (i : Z) : string := NilZero.string_of_int (Z.to_int i).

End PyStr.

(** ** Python values, the vendor runtime and the import system *)

(** A class found in a plugin module. *)
Record pyclass := PyClass { cls_module : string; cls_name : string }.

(** An object built by calling a class; [inst_id] is its identity. *)
Record instance := Instance { inst_class : pyclass; inst_id : nat }.

Inductive exn :=
| ImportError (name : string)
| AttributeError (obj attr : string)
| TypeError (msg : string)
| BackendError (msg : string).

Inductive outcome (A : Type) :=
| Returns (a : A)
| Raises (e : exn).
Arguments Returns {A} a.
Arguments Raises {A} e.

(** Arguments handed to the runtime, and the values the forwarding methods
    give back: [None], an attribute of the runtime, or whatever a runtime
    function returned. *)
Inductive pyarg :=
| ANone
| AInt (z : Z)
| AStr (s : string).

Inductive pyval :=
| VNone
| VAttr (path : string)
| VResult (path : string) (args : list pyarg).

(** [torch_musa]: which attributes it exposes, its [nvtx] namespace when it
    has one, the reported compute capability and what its functions return. *)
Record Runtime := {
  rt_hasattr : string -> bool;
  rt_nvtx : option (string -> bool);
  rt_device_capability : Z * Z;
  rt_call : string -> list pyarg -> outcome pyval
}.

(** A tensor, as far as the adapter looks at it: [str(tensor.device)]. *)
Record pytensor := { device_str : string }.

(** An imported module: the directory of its [__file__] and its namespace,
    in [__dir__()] order, each name with what [getattr] gives for it. *)
Record pymodule := {
  mod_dir : string;
  mod_members : list (string * pyclass)
}.

Record Env := {
  marker_importable : bool;
  import_module : string -> outcome pymodule;
  iter_modules : string -> list string;
  runtime : Runtime
}.

Inductive event :=
| EvMarkerImport
| EvImport (name : string)
| EvIterModules (dir : string)
| EvRuntimeCall (path : string) (args : list pyarg)
| EvConstruct (c : pyclass) (id : nat).

(** The adapter instance together with the effects observed so far. *)
Record World := {
  class_dict : option (gmap string pyclass);
  trace : list event;
  next_id : nat
}.

Definition fresh_world : World :=
  {| class_dict := None; trace := []; next_id := 0 |}.

Definition is_scan (ev : event) : bool :=
  match ev with EvIterModules _ => true | _ => false end.

Definition is_import (ev : event) : bool :=
  match ev with EvImport _ | EvMarkerImport => true | _ => false end.

Definition is_runtime_call (ev : event) : bool :=
  match ev with EvRuntimeCall _ _ => true | _ => false end.

Definition count_events (p : event -> bool) (w : World) : nat :=
  length (List.filter p (trace w)).

Definition scans : World -> nat := count_events is_scan.
Definition imports : World -> nat := count_events is_import.
Definition runtime_calls : World -> nat := count_events is_runtime_call.

(** ** A state-and-exception monad for method bodies *)

Definition M (A : Type) : Type := World -> World * outcome A.

Definition ret {A} (a : A) : M A := fun w => (w, Returns a).

Definition raise {A} (e : exn) : M A := fun w => (w, Raises e).

Definition bind {A B} (m : M A) (k : A -> M B) : M B :=
  fun w =>
    match m w with
    | (w', Returns a) => k a w'
    | (w', Raises e) => (w', Raises e)
    end.

Declare Scope py_scope.
Delimit Scope py_scope with py.
Notation "x <- c ;; k" := (bind c (fun x => k))
  (at level 100, c at next level, right associativity) : py_scope.
Notation "c ;;; k" := (bind c (fun _ => k))
  (at level 100, right associativity) : py_scope.
Local Open Scope py_scope.

Definition log (ev : event) : M unit :=
  fun w => ({| class_dict := class_dict w;
               trace := trace w ++ [ev];
               next_id := next_id w |}, Returns tt).

Definition write_class_dict (d : gmap string pyclass) : M unit :=
  fun w => ({| class_dict := Some d;
               trace := trace w;
               next_id := next_id w |}, Returns tt).

(** Reading [self.class_dict] where the code uses it as a dict. *)
Definition read_class_dict : M (gmap string pyclass) :=
  fun w =>
    match class_dict w with
    | Some d => (w, Returns d)
    | None => (w, Raises (TypeError "argument of type 'NoneType' is not iterable"))
    end.

(** [cls()]: a new object with its own identity. *)
Definition construct (c : pyclass) : M instance :=
  fun w => ({| class_dict := class_dict w;
               trace := trace w ++ [EvConstruct c (next_id w)];
               next_id := S (next_id w) |},
            Returns (Instance c (next_id w))).

(** ** The adapter: [class MUSA_Accelerator] *)

Section MUSA_Accelerator.

Context (env : Env).

Definition arg_of_index (device_index : option Z) : pyarg :=
  match device_index with
  | None => ANone
  | Some i => AInt i
  end.

(** A call of a [torch_musa] function. *)
Definition forward (path : string) (args : list pyarg) : M pyval :=
  log (EvRuntimeCall path args) ;;;
  (fun w => (w, rt_call (runtime env) path args)).

(** [torch_musa.nvtx]: an [AttributeError] when the runtime has no such
    namespace. *)
Definition nvtx : M (string -> bool) :=
  match rt_nvtx (runtime env) with
  | Some ns => ret ns
  | None => raise (AttributeError "torch_musa" "nvtx")
  end.

(** *** Device APIs *)

Definition device_name (device_index : option Z) : string :=
  match device_index with
  | None => "musa"
  | Some i => "musa:" +:+ PyStr.format_int i
  end.

(** *** Memory management *)

Definition memory_stats (device_index : option Z) : M pyval :=
  if rt_hasattr (runtime env) "memory_stats"
  then forward "memory_stats" [arg_of_index device_index]
  else ret VNone.

Definition reset_peak_memory_stats (device_index : option Z) : M pyval :=
  if rt_hasattr (runtime env) "reset_peak_memory_stats"
  then forward "reset_peak_memory_stats" [arg_of_index device_index]
  else ret VNone.

Definition memory_reserved (device_index : option Z) : M pyval :=
  if rt_hasattr (runtime env) "memory_reserved"
  then forward "memory_reserved" [arg_of_index device_index]
  else ret VNone.

Definition max_memory_reserved (device_index : option Z) : M pyval :=
  if rt_hasattr (runtime env) "max_memory_reserved"
  then forward "max_memory_reserved" [arg_of_index device_index]
  else ret VNone.

(** *** Data types *)

Definition is_fp16_supported : M bool :=
  log (EvRuntimeCall "get_device_capability" []) ;;;
  let '(major, _) := rt_device_capability (runtime env) in
  if (major >=? 7)%Z then ret true else ret false.

(** *** Misc *)

Definition amp : M pyval :=
  if rt_hasattr (runtime env) "amp" then ret (VAttr "amp") else ret VNone.

Definition range_push (msg : string) : M pyval :=
  ns <- nvtx ;;
  if ns "range_push" then forward "nvtx.range_push" [AStr msg] else ret VNone.

Definition range_pop : M pyval :=
  ns <- nvtx ;;
  if ns "range_pop" then forward "nvtx.range_pop" [] else ret VNone.

Definition on_accelerator (tensor : pytensor) : bool :=
  if PyStr.startswith (device_str tensor) "musa:" then true else false.

(** *** Op builders *)

Definition op_builder_dir : M string :=
  log EvMarkerImport ;;;
  if marker_importable env then ret "op_builder"
  else ret "deepspeed.ops.op_builder".

Definition importlib_import_module (name : string) : M pymodule :=
  log (EvImport name) ;;;
  (fun w => (w, import_module env name)).

Definition pkgutil_iter_modules (dir : string) : M (list string) :=
  log (EvIterModules dir) ;;;
  ret (iter_modules env dir).

(** [module_name != 'all_ops' and module_name != 'builder' and
    module_name != 'cpu'] *)
Definition module_selected (module_name : string) : bool :=
  negb (String.eqb module_name "all_ops")
  && negb (String.eqb module_name "builder")
  && negb (String.eqb module_name "cpu").

(** [member_name.endswith('Builder') and member_name != "OpBuilder" and
    member_name != "CUDAOpBuilder" and member_name != "TorchCPUOpBuilder"] *)
Definition member_accepted (member_name : string) : bool :=
  PyStr.endswith member_name "Builder"
  && negb (String.eqb member_name "OpBuilder")
  && negb (String.eqb member_name "CUDAOpBuilder")
  && negb (String.eqb member_name "TorchCPUOpBuilder").

(** The inner loop, [for member_name in module.__dir__()]. *)
Fixpoint scan_members (members : list (string * pyclass)) : M unit :=
  match members with
  | [] => ret tt
  | (member_name, cls) :: rest =>
      (if member_accepted member_name then
         d <- read_class_dict ;;
         match d !! member_name with
         | Some _ => ret tt
         | None => write_class_dict (<[member_name := cls]> d)
         end
       else ret tt) ;;;
      scan_members rest
  end.

(** The outer loop, [for _, module_name, _ in pkgutil.iter_modules(...)]. *)
Fixpoint scan_modules (dir : string) (names : list string) : M unit :=
  match names with
  | [] => ret tt
  | module_name :: rest =>
      (if module_selected module_name then
         module <- importlib_import_module (dir +:+ "." +:+ module_name) ;;
         scan_members (mod_members module)
       else ret tt) ;;;
      scan_modules dir rest
  end.

Definition _lazy_init_class_dict : M unit :=
  fun w =>
    match class_dict w with
    | Some _ => (w, Returns tt)
    | None =>
        (write_class_dict ∅ ;;;
         dir <- op_builder_dir ;;
         op_builder_module <- importlib_import_module dir ;;
         names <- pkgutil_iter_modules (mod_dir op_builder_module) ;;
         scan_modules dir names) w
    end.

Definition create_op_builder (class_name : string) : M (option instance) :=
  _lazy_init_class_dict ;;;
  d <- read_class_dict ;;
  match d !! class_name with
  | Some cls => i <- construct cls ;; ret (Some i)
  | None => ret None
  end.

Definition get_op_builder (class_name : string) : M (option pyclass) :=
  _lazy_init_class_dict ;;;
  d <- read_class_dict ;;
  match d !! class_name with
  | Some cls => ret (Some cls)
  | None => ret None
  end.

End MUSA_Accelerator.

(** ** Callers: sequences of registry calls on one instance *)

Inductive call :=
| GetOpBuilder (class_name : string)
| CreateOpBuilder (class_name : string).

Inductive reply :=
| RClass (c : option pyclass)
| RInstance (i : option instance).

Definition run_call (env : Env) (c : call) : M reply :=
  match c with
  | GetOpBuilder n => r <- get_op_builder env n ;; ret (RClass r)
  | CreateOpBuilder n => r <- create_op_builder env n ;; ret (RInstance r)
  end.

(** The caller makes the calls one after the other on the same instance,
    whether or not an earlier one raised. *)
Fixpoint run_calls (env : Env) (cs : list call) (w : World)
  : World * list (outcome reply) :=
  match cs with
  | [] => (w, [])
  | c :: rest =>
      let '(w1, r) := run_call env c w in
      let '(w2, rs) := run_calls env rest w1 in
      (w2, r :: rs)
  end.

(** ** What a discovery run reads: pure views used in the statements *)

Definition package_name (env : Env) : string :=
  if marker_importable env then "op_builder" else "deepspeed.ops.op_builder".

(** One step of the inner loop on the dict alone. *)
Definition register (d : gmap string pyclass) (m : string * pyclass)
  : gmap string pyclass :=
  if member_accepted m.1 then
    match d !! m.1 with
    | Some _ => d
    | None => <[m.1 := m.2]> d
    end
  else d.

Definition collect (members : list (string * pyclass)) (d : gmap string pyclass)
  : gmap string pyclass :=
  fold_left register members d.

(** Namespaces of the selected submodules, in enumeration order, up to the
    first one whose import fails. *)
Fixpoint loaded_members (env : Env) (dir : string) (names : list string)
  : list (string * pyclass) :=
  match names with
  | [] => []
  | n :: rest =>
      if module_selected n then
        match import_module env (dir +:+ "." +:+ n) with
        | Returns m => mod_members m ++ loaded_members env dir rest
        | Raises _ => []
        end
      else loaded_members env dir rest
  end.

Fixpoint first_failure (env : Env) (dir : string) (names : list string)
  : option exn :=
  match names with
  | [] => None
  | n :: rest =>
      if module_selected n then
        match import_module env (dir +:+ "." +:+ n) with
        | Returns _ => first_failure env dir rest
        | Raises e => Some e
        end
      else first_failure env dir rest
  end.

(** Submodules whose import is attempted, the failing one included. *)
Fixpoint attempted (env : Env) (dir : string) (names : list string)
  : list string :=
  match names with
  | [] => []
  | n :: rest =>
      if module_selected n then
        match import_module env (dir +:+ "." +:+ n) with
        | Returns _ => n :: attempted env dir rest
        | Raises _ => [n]
        end
      else attempted env dir rest
  end.

(** Submodule names the package directory lists (empty when the package
    itself cannot be imported). *)
Definition listed_modules (env : Env) : list string :=
  match import_module env (package_name env) with
  | Returns pkg => iter_modules env (mod_dir pkg)
  | Raises _ => []
  end.

(** Every symbol seen by the inner loop during one discovery run. *)
Definition discovered (env : Env) : list (string * pyclass) :=
  loaded_members env (package_name env) (listed_modules env).

(** The first binding of [n] in an association list. *)
Definition first_binding (n : string) (l : list (string * pyclass))
  : option pyclass :=
  snd <$> List.find (fun p => String.eqb p.1 n) l.

(** The symbols of a namespace that pass the name test, in order. *)
Definition accepted_symbols (l : list (string * pyclass))
  : list (string * pyclass) :=
  List.filter (fun p => member_accepted p.1) l.

(** Object identities handed out so far are below [next_id]. *)
Definition ids_below (w : World) : Prop :=
  forall c id, In (EvConstruct c id) (trace w) -> (id < next_id w)%nat.

(** [hasattr(torch_musa.nvtx, a)] as a property of the runtime alone. *)
Definition nvtx_exposes (rt : Runtime) (a : string) : bool :=
  match rt_nvtx rt with
  | Some ns => ns a
  | None => false
  end.

Definition submodule_import (dir : string) (module_name : string) : event :=
  EvImport (dir +:+ "." +:+ module_name).

(** Effects of one discovery run, in order. *)
Definition discovery_trace (env : Env) : list event :=
  EvMarkerImport :: EvImport (package_name env) ::
  match import_module env (package_name env) with
  | Returns pkg =>
      EvIterModules (mod_dir pkg) ::
      map (submodule_import (package_name env))
          (attempted env (package_name env) (iter_modules env (mod_dir pkg)))
  | Raises _ => []
  end.

(** How one discovery run ends. *)
Definition discovery_outcome (env : Env) : outcome unit :=
  match import_module env (package_name env) with
  | Returns pkg =>
      match first_failure env (package_name env)
              (iter_modules env (mod_dir pkg)) with
      | None => Returns tt
      | Some e => Raises e
      end
  | Raises e => Raises e
  end.

Definition with_registry (d : gmap string pyclass) (evs : list event) (w : World)
  : World :=
  {| class_dict := Some d; trace := trace w ++ evs; next_id := next_id w |}.

(** ** Sample runtimes and plugin packages *)

Module Samples.

Definition AsyncIOBuilder := PyClass "op_builder.async_io" "AsyncIOBuilder".
Definition FusedAdamBuilder := PyClass "op_builder.fused_adam" "FusedAdamBuilder".
Definition OtherAsyncIO := PyClass "op_builder.compat" "AsyncIOBuilder".
Definition OpBuilder := PyClass "op_builder.builder" "OpBuilder".

(** A runtime with none of the optional attributes and no [nvtx]. *)
Definition rt_bare : Runtime :=
  {| rt_hasattr := fun _ => false;
     rt_nvtx := None;
     rt_device_capability := (7, 0)%Z;
     rt_call := fun p a => Returns (VResult p a) |}.

(** The same with an empty [nvtx] namespace. *)
Definition rt_empty_nvtx : Runtime :=
  {| rt_hasattr := fun _ => false;
     rt_nvtx := Some (fun _ => false);
     rt_device_capability := (6, 1)%Z;
     rt_call := fun p a => Returns (VResult p a) |}.

Definition pkg_dir : string := "/site/op_builder".

Definition package : pymodule := {| mod_dir := pkg_dir; mod_members := [] |}.

Definition async_io : pymodule :=
  {| mod_dir := pkg_dir;
     mod_members := [("os", PyClass "os" "os");
                     ("OpBuilder", OpBuilder);
                     ("AsyncIOBuilder", AsyncIOBuilder)] |}.

Definition fused_adam : pymodule :=
  {| mod_dir := pkg_dir;
     mod_members := [("FusedAdamBuilder", FusedAdamBuilder)] |}.

Definition compat : pymodule :=
  {| mod_dir := pkg_dir;
     mod_members := [("AsyncIOBuilder", OtherAsyncIO)] |}.

Definition importer (n : string) : outcome pymodule :=
  if String.eqb n "op_builder" then Returns package
  else if String.eqb n "op_builder.async_io" then Returns async_io
  else if String.eqb n "op_builder.fused_adam" then Returns fused_adam
  else if String.eqb n "op_builder.compat" then Returns compat
  else Raises (ImportError n).

(** A healthy package: the excluded modules would not even import. *)
Definition env_ok : Env :=
  {| marker_importable := true;
     import_module := importer;
     iter_modules := fun d =>
       if String.eqb d pkg_dir
       then ["all_ops"; "async_io"; "builder"; "compat"; "cpu"; "fused_adam"]
       else [];
     runtime := rt_empty_nvtx |}.

(** A package with a submodule that fails to import between two good
    ones. *)
Definition env_broken : Env :=
  {| marker_importable := true;
     import_module := importer;
     iter_modules := fun d =>
       if String.eqb d pkg_dir
       then ["all_ops"; "async_io"; "broken"; "fused_adam"]
       else [];
     runtime := rt_bare |}.

(** A package whose builders each live in one submodule only, and the same
    package listed in another order. *)
Definition env_unique : Env :=
  {| marker_importable := true;
     import_module := importer;
     iter_modules := fun d =>
       if String.eqb d pkg_dir then ["async_io"; "fused_adam"] else [];
     runtime := rt_bare |}.

Definition env_reordered : Env :=
  {| marker_importable := true;
     import_module := importer;
     iter_modules := fun d =>
       if String.eqb d pkg_dir then ["fused_adam"; "async_io"] else [];
     runtime := rt_bare |}.

(** The broken package once its middle submodule imports (it then
    exports nothing of its own). *)
Definition env_repaired : Env :=
  {| marker_importable := true;
     import_module := fun n =>
       if String.eqb n "op_builder.broken"
       then Returns {| mod_dir := pkg_dir; mod_members := [] |}
       else importer n;
     iter_modules := fun d =>
       if String.eqb d pkg_dir
       then ["all_ops"; "async_io"; "broken"; "fused_adam"]
       else [];
     runtime := rt_bare |}.

Definition ready_world : World :=
  {| class_dict := Some {[ "AsyncIOBuilder" := AsyncIOBuilder ]};
     trace := [];
     next_id := 0 |}.

End Samples.

(** ** The rest of the adapter: devices, RNG state, memory counters *)

(** What [torch_musa] reports where the adapter looks at the value itself:
    the index [current_device()] returns (or what it raises) and the
    [default_generators] sequence. *)
Record DeviceRuntime := {
  dr_current_device : outcome Z;
  dr_default_generators : list pyval
}.

(** [seq[i]] for an [int] index on a tuple or list: in range from the front,
    in range from the back for a negative index, [None] standing for
    [IndexError]. *)
Definition py_getitem {A : Type} (seq : list A) (i : Z) : option A :=
  let n := Z.of_nat (length seq) in
  if (0 <=? i)%Z && (i <? n)%Z then nth_error seq (Z.to_nat i)
  else if (- n <=? i)%Z && (i <? 0)%Z then nth_error seq (Z.to_nat (n + i))
  else None.

Section MUSA_Accelerator_Devices.

Context (env : Env) (dev : DeviceRuntime).

Definition is_synchronized_device : bool := false.

Definition device (device_index : option Z) : M pyval :=
  forward env "device" [arg_of_index device_index].

(** The body has no [return]: the caller gets [None]. *)
Definition set_device (device_index : option Z) : M pyval :=
  forward env "set_device" [arg_of_index device_index] ;;;
  ret VNone.

Definition current_device : M Z :=
  log (EvRuntimeCall "current_device" []) ;;;
  (fun w => (w, dr_current_device dev)).

Definition current_device_name : M string :=
  i <- current_device ;;
  ret ("musa:" +:+ PyStr.format_int i).

Definition synchronize (device_index : option Z) : M pyval :=
  forward env "synchronize" [arg_of_index device_index].

(** *** RNG APIs *)

Definition set_rng_state (new_state : pyarg) (device_index : option Z)
  : M pyval :=
  match device_index with
  | None => forward env "set_rng_state" [new_state]
  | Some i => forward env "set_rng_state" [new_state; AInt i]
  end.

Definition get_rng_state (device_index : option Z) : M pyval :=
  match device_index with
  | None => forward env "get_rng_state" []
  | Some i => forward env "get_rng_state" [AInt i]
  end.

Definition manual_seed (seed : Z) : M pyval :=
  forward env "manual_seed" [AInt seed].

Definition manual_seed_all (seed : Z) : M pyval :=
  forward env "manual_seed_all" [AInt seed].

Definition initial_seed (seed : Z) : M pyval :=
  forward env "initial_seed" [AInt seed].

Definition default_generator (device_index : Z) : option pyval :=
  py_getitem (dr_default_generators dev) device_index.

(** *** Memory management, the unguarded part *)

Definition empty_cache : M pyval := forward env "empty_cache" [].

Definition memory_allocated (device_index : option Z) : M pyval :=
  forward env "memory_allocated" [arg_of_index device_index].

Definition max_memory_allocated (device_index : option Z) : M pyval :=
  forward env "max_memory_allocated" [arg_of_index device_index].

Definition reset_max_memory_allocated (device_index : option Z) : M pyval :=
  forward env "reset_max_memory_allocated" [arg_of_index device_index].

Definition memory_cached (device_index : option Z) : M pyval :=
  forward env "memory_cached" [arg_of_index device_index].

Definition max_memory_cached (device_index : option Z) : M pyval :=
  forward env "max_memory_cached" [arg_of_index device_index].

Definition reset_max_memory_cached (device_index : option Z) : M pyval :=
  forward env "reset_max_memory_cached" [arg_of_index device_index].

Definition is_bf16_supported : M pyval := forward env "is_bf16_supported" [].

Definition is_available : M pyval := forward env "is_available" [].

End MUSA_Accelerator_Devices.

(** ** Callers of the whole adapter *)

(** The methods that reach the runtime through a plain call. *)
Inductive runtime_method :=
| MDevice (device_index : option Z)
| MSetDevice (device_index : option Z)
| MSynchronize (device_index : option Z)
| MSetRngState (new_state : pyarg) (device_index : option Z)
| MGetRngState (device_index : option Z)
| MManualSeed (seed : Z)
| MManualSeedAll (seed : Z)
| MInitialSeed (seed : Z)
| MEmptyCache
| MMemoryAllocated (device_index : option Z)
| MMaxMemoryAllocated (device_index : option Z)
| MResetMaxMemoryAllocated (device_index : option Z)
| MMemoryCached (device_index : option Z)
| MMaxMemoryCached (device_index : option Z)
| MResetMaxMemoryCached (device_index : option Z)
| MMemoryStats (device_index : option Z)
| MResetPeakMemoryStats (device_index : option Z)
| MMemoryReserved (device_index : option Z)
| MMaxMemoryReserved (device_index : option Z)
| MIsBf16Supported
| MIsAvailable
| MAmp
| MRangePush (msg : string)
| MRangePop.

Definition run_method (env : Env) (m : runtime_method) : M pyval :=
  match m with
  | MDevice i => device env i
  | MSetDevice i => set_device env i
  | MSynchronize i => synchronize env i
  | MSetRngState s i => set_rng_state env s i
  | MGetRngState i => get_rng_state env i
  | MManualSeed s => manual_seed env s
  | MManualSeedAll s => manual_seed_all env s
  | MInitialSeed s => initial_seed env s
  | MEmptyCache => empty_cache env
  | MMemoryAllocated i => memory_allocated env i
  | MMaxMemoryAllocated i => max_memory_allocated env i
  | MResetMaxMemoryAllocated i => reset_max_memory_allocated env i
  | MMemoryCached i => memory_cached env i
  | MMaxMemoryCached i => max_memory_cached env i
  | MResetMaxMemoryCached i => reset_max_memory_cached env i
  | MMemoryStats i => memory_stats env i
  | MResetPeakMemoryStats i => reset_peak_memory_stats env i
  | MMemoryReserved i => memory_reserved env i
  | MMaxMemoryReserved i => max_memory_reserved env i
  | MIsBf16Supported => is_bf16_supported env
  | MIsAvailable => is_available env
  | MAmp => amp env
  | MRangePush msg => range_push env msg
  | MRangePop => range_pop env
  end.

(** Each listed, selected submodule imports. *)
Definition all_selected_import (env : Env) (dir : string)
           (names : list string) : Prop :=
  Forall (fun mn => module_selected mn = true ->
                    exists m, import_module env (dir +:+ "." +:+ mn) = Returns m)
         names.

(** A runtime with every optional attribute, whose [memory_reserved]
    fails, and a setup without any plugin package. *)
Definition rt_full : Runtime :=
  {| rt_hasattr := fun _ => true;
     rt_nvtx := Some (fun _ => true);
     rt_device_capability := (8, 0)%Z;
     rt_call := fun p a =>
       if String.eqb p "memory_reserved" then Raises (BackendError "device lost")
       else Returns (VResult p a) |}.

Definition env_full : Env :=
  {| marker_importable := false;
     import_module := fun n => Raises (ImportError n);
     iter_modules := fun _ => [];
     runtime := rt_full |}.

(** The world a first call leaves behind once discovery is over. *)
Definition discovered_world (env : Env) (w : World) : World :=
  with_registry (collect (discovered env) ∅) (discovery_trace env) w.

(** How many directory scans a call may still add. *)
Definition scans_left (w : World) : nat :=
  match class_dict w with
  | Some _ => 0
  | None => 1
  end.

(** What a method that reaches the runtime can do to the world: nothing, or
    append the record of one runtime call. *)
Inductive runtime_step (env : Env) (w : World) : World -> outcome pyval -> Prop :=
| step_quiet (r : outcome pyval) :
    (r = Returns VNone \/ r = Returns (VAttr "amp")
     \/ (r = Raises (AttributeError "torch_musa" "nvtx")
         /\ rt_nvtx (runtime env) = None)) ->
    runtime_step env w w r
| step_call (path : string) (args : list pyarg) (r : outcome pyval) :
    (r = rt_call (runtime env) path args
     \/ (path = "set_device" /\ r = Returns VNone
         /\ exists v, rt_call (runtime env) path args = Returns v)) ->
    runtime_step env w
      {| class_dict := class_dict w;
         trace := trace w ++ [EvRuntimeCall path args];
         next_id := next_id w |} r.

(** * Properties *)

(** ** Facts about the string helpers *)

Module PyStrFacts.
Import PyStr.

Lemma prefix_append (p r : string) : String.prefix p (p +:+ r) = true.
Proof.
  induction p as [|c p IH]; simpl.
  - by destruct r.
  - destruct (Ascii.ascii_dec c c); [exact IH | congruence].
Qed.

Lemma prefix_split (p s : string) :
  String.prefix p s = true -> exists r, s = p +:+ r.
Proof.
  revert s; induction p as [|c p IH]; intros s H.
  - by exists s.
  - destruct s as [|d s]; simpl in H; [discriminate|].
    destruct (Ascii.ascii_dec c d) as [->|]; [|discriminate].
    destruct (IH _ H) as [r ->]. by exists r.
Qed.

Lemma startswith_spec (s p : string) :
  startswith s p = true <-> exists r, s = p +:+ r.
Proof.
  unfold startswith; split.
  - apply prefix_split.
  - intros [r ->]. apply prefix_append.
Qed.

Lemma length_append (a b : string) :
  String.length (a +:+ b) = (String.length a + String.length b)%nat.
Proof. induction a; simpl; [done | by f_equal]. Qed.

Lemma substring_all (s : string) : substring 0 (String.length s) s = s.
Proof. induction s; simpl; [done | by f_equal]. Qed.

Lemma substring_skip (a b : string) (k : nat) :
  substring (String.length a) k (a +:+ b) = substring 0 k b.
Proof. induction a; simpl; [done | exact IHa]. Qed.

(** A string is the concatenation of its first [n] characters and the rest. *)
Lemma substring_cut (s : string) (n : nat) :
  (n <= String.length s)%nat ->
  s = substring 0 n s +:+ substring n (String.length s - n) s.
Proof.
  revert n; induction s as [|c s IH]; intros n Hn; simpl in *.
  - destruct n; [done | lia].
  - destruct n as [|n]; simpl.
    + by rewrite substring_all.
    + change (String c s = String c (substring 0 n s +:+
                 substring n (String.length s - n) s)).
      f_equal. apply IH. lia.
Qed.

Lemma endswith_spec (s suf : string) :
  endswith s suf = true <-> exists p, s = p +:+ suf.
Proof.
  unfold endswith; split.
  - destruct (Nat.leb_spec (String.length suf) (String.length s)) as [Hle|];
      [|discriminate].
    intros H. apply String.eqb_eq in H.
    exists (substring 0 (String.length s - String.length suf) s).
    pose proof (substring_cut s (String.length s - String.length suf)) as Hc.
    replace (String.length s - (String.length s - String.length suf))%nat
      with (String.length suf) in Hc by lia.
    rewrite H in Hc. apply Hc. lia.
  - intros [p ->]. rewrite length_append.
    destruct (Nat.leb_spec (String.length suf)
                (String.length p + String.length suf)) as [_|]; [|lia].
    replace (String.length p + String.length suf - String.length suf)%nat
      with (String.length p) by lia.
    rewrite substring_skip, substring_all. apply String.eqb_refl.
Qed.

Lemma append_inj_l (p a b : string) : p +:+ a = p +:+ b -> a = b.
Proof.
  induction p as [|c p IH]; simpl; intros H; [done|].
  apply IH. by injection H.
Qed.

Lemma append_not_self (p r : string) : r <> "" -> p <> p +:+ r.
Proof.
  intros Hr H. apply (f_equal String.length) in H.
  rewrite length_append in H.
  destruct r; [done | simpl in H; lia].
Qed.

End PyStrFacts.

(** ** Running the loops *)

Section Discovery.

Context (env : Env).

Lemma collect_app (a b : list (string * pyclass)) (d : gmap string pyclass) :
  collect (a ++ b) d = collect b (collect a d).
Proof. unfold collect. apply fold_left_app. Qed.

Lemma with_registry_nil (w : World) (d : gmap string pyclass) :
  class_dict w = Some d -> with_registry d [] w = w.
Proof.
  destruct w as [cd tr nid]; unfold with_registry; simpl.
  intros ->. by rewrite app_nil_r.
Qed.

Lemma with_registry_twice (w : World) (d d' : gmap string pyclass)
      (evs evs' : list event) :
  with_registry d' evs' (with_registry d evs w)
  = with_registry d' (evs ++ evs') w.
Proof. unfold with_registry; simpl. by rewrite app_assoc. Qed.

(** The inner loop never raises once the dict exists and touches nothing
    but the dict. *)
Lemma scan_members_run (members : list (string * pyclass)) :
  forall (w : World) (d : gmap string pyclass),
    class_dict w = Some d ->
    scan_members members w
    = ({| class_dict := Some (collect members d);
          trace := trace w;
          next_id := next_id w |}, Returns tt).
Proof.
  induction members as [|[n c] members IH]; intros w d Hd.
  - destruct w; simpl in *; by subst.
  - cbn [scan_members]. unfold bind.
    change (collect ((n, c) :: members) d)
      with (collect members (register d (n, c))).
    unfold register; cbn [fst snd].
    destruct (member_accepted n).
    + unfold read_class_dict. rewrite Hd.
      destruct (d !! n).
      * unfold ret. by apply IH.
      * unfold write_class_dict. by rewrite (IH _ (<[n:=c]> d)).
    + unfold ret. by apply IH.
Qed.

Lemma scan_modules_run (dir : string) (names : list string) :
  forall (w : World) (d : gmap string pyclass),
    class_dict w = Some d ->
    scan_modules env dir names w
    = (with_registry (collect (loaded_members env dir names) d)
         (map (submodule_import dir) (attempted env dir names)) w,
       match first_failure env dir names with
       | None => Returns tt
       | Some e => Raises e
       end).
Proof.
  induction names as [|n names IH]; intros w d Hd.
  - cbn. unfold ret. by rewrite with_registry_nil.
  - cbn [scan_modules loaded_members attempted first_failure].
    unfold bind at 1.
    destruct (module_selected n).
    + unfold bind at 1. unfold importlib_import_module, bind, log.
      destruct (import_module env (dir +:+ "." +:+ n)) as [m|e].
      * rewrite (scan_members_run _ _ d) by done. cbn [trace next_id].
        rewrite (IH _ (collect (mod_members m) d)) by done.
        rewrite collect_app. unfold with_registry; cbn.
        by rewrite <- app_assoc.
      * cbn. unfold with_registry; cbn. by rewrite Hd.
    + unfold ret. by apply IH.
Qed.

(** A first use runs discovery: the dict is created before anything is
    imported and keeps what the loops put into it, however they end. *)
Lemma lazy_init_first (w : World) :
  class_dict w = None ->
  _lazy_init_class_dict env w
  = (with_registry (collect (discovered env) ∅) (discovery_trace env) w,
     discovery_outcome env).
Proof.
  intros Hw. unfold _lazy_init_class_dict. rewrite Hw.
  unfold discovered, listed_modules, discovery_trace, discovery_outcome.
  unfold bind at 1. unfold write_class_dict.
  unfold bind at 1. unfold op_builder_dir, bind at 1, log. cbn [trace next_id class_dict].
  fold (package_name env).
  assert (Hdir : forall w0 : World,
    (if marker_importable env then ret "op_builder"
     else ret "deepspeed.ops.op_builder") w0 = (w0, Returns (package_name env))).
  { intros w0. unfold package_name. by destruct (marker_importable env). }
  rewrite Hdir.
  unfold bind at 1. unfold importlib_import_module, bind at 1, log.
  cbn [trace next_id class_dict].
  destruct (import_module env (package_name env)) as [pkg|e].
  - unfold bind at 1. unfold pkgutil_iter_modules, bind, log, ret.
    cbn [trace next_id class_dict].
    rewrite (scan_modules_run _ _ _ ∅) by done.
    unfold with_registry; cbn. by rewrite <- !app_assoc.
  - unfold with_registry; cbn. by rewrite <- !app_assoc.
Qed.

(** Any later use returns at once. *)
Lemma lazy_init_again (w : World) (d : gmap string pyclass) :
  class_dict w = Some d ->
  _lazy_init_class_dict env w = (w, Returns tt).
Proof. intros Hw. unfold _lazy_init_class_dict. by rewrite Hw. Qed.

End Discovery.

(** ** Device names and the device-string test *)

Lemma on_accelerator_true (tensor : pytensor) :
  on_accelerator tensor = true
  <-> exists rest, device_str tensor = "musa:" +:+ rest.
Proof.
  unfold on_accelerator. rewrite <- PyStrFacts.startswith_spec.
  by destruct (PyStr.startswith _ _).
Qed.

(** C4: [on_accelerator] answers true exactly for tensors whose device
    string has the form ["musa:" ++ rest]; every other device string, the
    bare name ["musa"] included, gives false. *)
Theorem on_accelerator_prefix :
  (forall tensor : pytensor,
      on_accelerator tensor = true
      <-> exists rest, device_str tensor = "musa:" +:+ rest)
  /\ (forall tensor : pytensor,
        on_accelerator tensor = false
        <-> ~ exists rest, device_str tensor = "musa:" +:+ rest)
  /\ on_accelerator {| device_str := "musa" |} = false.
Proof.
  split; [exact on_accelerator_true|]. split; [|reflexivity].
  intros t. rewrite <- on_accelerator_true.
  destruct (on_accelerator t); split; congruence.
Qed.

(** The text [format_int] produces parses as a decimal numeral without
    leading zeros (and no negative zero) whose value is the integer. *)
Lemma format_int_reads_back (i : Z) :
  NilZero.int_of_string (PyStr.format_int i) = Some (Z.to_int i)
  /\ Decimal.norm (Z.to_int i) = Z.to_int i
  /\ Z.of_int (Z.to_int i) = i.
Proof.
  split; [|split].
  - unfold PyStr.format_int.
    apply NilZero.isi; destruct i as [|p|p]; cbn;
      try discriminate; intros [= Hp];
      by apply (DecimalPos.Unsigned.to_uint_nonnil p).
  - rewrite <- (DecimalZ.of_to i) at 2. symmetry. apply DecimalZ.to_of.
  - apply DecimalZ.of_to.
Qed.

(** C10: without an index [device_name] is the bare ["musa"]; with an index
    [i] it is ["musa:"] followed by the decimal numeral of [i], that is by
    digits that parse to a numeral in normal form (no leading zeros, no
    negative zero) whose value is [i]. [on_accelerator] rejects a tensor
    whose device string is the first and accepts one whose device string is
    any of the second. *)
Theorem device_name_on_accelerator :
  device_name None = "musa"
  /\ (forall i : Z,
        exists (digits : string) (d : Decimal.int),
          device_name (Some i) = "musa:" +:+ digits
          /\ NilZero.int_of_string digits = Some d
          /\ Decimal.norm d = d
          /\ Z.of_int d = i)
  /\ (forall tensor : pytensor,
        device_str tensor = device_name None ->
        on_accelerator tensor = false)
  /\ (forall (tensor : pytensor) (i : Z),
        device_str tensor = device_name (Some i) ->
        on_accelerator tensor = true).
Proof.
  split; [reflexivity|]. split; [|split].
  - intros i. exists (PyStr.format_int i), (Z.to_int i).
    split; [reflexivity|]. apply format_int_reads_back.
  - intros t Ht. unfold on_accelerator. by rewrite Ht.
  - intros t i Ht. apply on_accelerator_true. rewrite Ht.
    by exists (PyStr.format_int i).
Qed.

Lemma device_name_on_accelerator_witness :
  on_accelerator {| device_str := "musa" |} = false
  /\ on_accelerator {| device_str := "musa:12" |} = true
  /\ on_accelerator {| device_str := "musa:-7" |} = true.
Proof.
  destruct device_name_on_accelerator as (_ & _ & Hbare & Hindexed).
  split; [|split].
  - apply Hbare. reflexivity.
  - apply (Hindexed _ 12%Z). reflexivity.
  - apply (Hindexed _ (-7)%Z). reflexivity.
Defined.

Example device_name_0 : device_name (Some 0%Z) = "musa:0".
Proof. reflexivity. Qed.

Example device_name_12 : device_name (Some 12%Z) = "musa:12".
Proof. reflexivity. Qed.

Example on_accelerator_cpu : on_accelerator {| device_str := "cpu" |} = false.
Proof. reflexivity. Qed.

Example on_accelerator_cuda :
  on_accelerator {| device_str := "cuda:0" |} = false.
Proof. reflexivity. Qed.

(** ** Capability queries *)

(** C2: [is_fp16_supported] returns, never raises, and its answer is true
    exactly when the reported major compute capability is at least 7; the
    adapter's registry is left alone. *)
Theorem is_fp16_supported_threshold (env : Env) (w : World) :
  exists (w' : World) (b : bool),
    is_fp16_supported env w = (w', Returns b)
    /\ (b = true <-> (7 <= (rt_device_capability (runtime env)).1)%Z)
    /\ (b = false <-> ((rt_device_capability (runtime env)).1 < 7)%Z)
    /\ class_dict w' = class_dict w.
Proof.
  unfold is_fp16_supported, bind, log.
  destruct (rt_device_capability (runtime env)) as [major minor]; cbn [fst].
  destruct (Z.geb_spec major 7) as [Hge|Hlt]; unfold ret;
    eexists _, _; (split; [reflexivity|]); repeat split; intros; try done; lia.
Qed.

Example is_fp16_supported_at_7 :
  (is_fp16_supported Samples.env_broken fresh_world).2 = Returns true.
Proof. reflexivity. Qed.

Example is_fp16_supported_at_6 :
  (is_fp16_supported Samples.env_ok fresh_world).2 = Returns false.
Proof. reflexivity. Qed.

(** ** Optional capabilities *)

(** The guarded methods on a runtime that lacks what they probe for: a
    method guarded by [hasattr(torch_musa, a)] returns [None] and leaves
    the world as it was; [range_push] and [range_pop] do so when the [nvtx]
    namespace is there without the function, while on a runtime without
    any [nvtx] namespace evaluating the guard itself raises. *)
Lemma optional_capability_absent (env : Env) (w : World)
        (device_index : option Z) (msg : string) :
  (rt_hasattr (runtime env) "memory_stats" = false ->
   memory_stats env device_index w = (w, Returns VNone))
  /\ (rt_hasattr (runtime env) "reset_peak_memory_stats" = false ->
      reset_peak_memory_stats env device_index w = (w, Returns VNone))
  /\ (rt_hasattr (runtime env) "memory_reserved" = false ->
      memory_reserved env device_index w = (w, Returns VNone))
  /\ (rt_hasattr (runtime env) "max_memory_reserved" = false ->
      max_memory_reserved env device_index w = (w, Returns VNone))
  /\ (rt_hasattr (runtime env) "amp" = false ->
      amp env w = (w, Returns VNone))
  /\ (forall ns, rt_nvtx (runtime env) = Some ns -> ns "range_push" = false ->
      range_push env msg w = (w, Returns VNone))
  /\ (forall ns, rt_nvtx (runtime env) = Some ns -> ns "range_pop" = false ->
      range_pop env w = (w, Returns VNone))
  /\ (rt_nvtx (runtime env) = None ->
      range_push env msg w = (w, Raises (AttributeError "torch_musa" "nvtx"))
      /\ range_pop env w = (w, Raises (AttributeError "torch_musa" "nvtx"))).
Proof.
  unfold memory_stats, reset_peak_memory_stats, memory_reserved,
    max_memory_reserved, amp, range_push, range_pop, nvtx, bind, ret, raise.
  destruct (runtime env) as [has ns_opt cap call]; cbn.
  repeat apply conj.
  1-5: by intros ->.
  1-2: by intros ns -> ->.
  by intros ->.
Qed.

Lemma optional_capability_absent_witness :
  memory_stats Samples.env_ok None fresh_world = (fresh_world, Returns VNone)
  /\ reset_peak_memory_stats Samples.env_ok (Some 0%Z) fresh_world
     = (fresh_world, Returns VNone)
  /\ memory_reserved Samples.env_ok None fresh_world = (fresh_world, Returns VNone)
  /\ max_memory_reserved Samples.env_ok None fresh_world
     = (fresh_world, Returns VNone)
  /\ amp Samples.env_ok fresh_world = (fresh_world, Returns VNone)
  /\ range_push Samples.env_ok "step" fresh_world = (fresh_world, Returns VNone)
  /\ range_pop Samples.env_ok fresh_world = (fresh_world, Returns VNone).
Proof.
  destruct (optional_capability_absent Samples.env_ok fresh_world None "step")
    as (H1 & _ & H3 & H4 & H5 & H6 & H7 & _).
  destruct (optional_capability_absent Samples.env_ok fresh_world (Some 0%Z) "step")
    as (_ & H2 & _).
  repeat apply conj.
  - apply H1; reflexivity.
  - apply H2; reflexivity.
  - apply H3; reflexivity.
  - apply H4; reflexivity.
  - apply H5; reflexivity.
  - apply (H6 (fun _ => false)); reflexivity.
  - apply (H7 (fun _ => false)); reflexivity.
Defined.

(** C9: on a runtime that has no [nvtx] namespace, and so exposes neither
    [range_push] nor [range_pop], both methods raise [AttributeError] from
    inside their own [hasattr] guard instead of returning [None]; on the
    same runtime the methods guarded on [torch_musa] itself ([memory_stats],
    [reset_peak_memory_stats], [memory_reserved], [max_memory_reserved],
    [amp]) return [None] and leave the world as it was. *)
Theorem range_push_without_nvtx_raises :
  nvtx_exposes (runtime Samples.env_broken) "range_push" = false
  /\ nvtx_exposes (runtime Samples.env_broken) "range_pop" = false
  /\ range_push Samples.env_broken "step" fresh_world
     = (fresh_world, Raises (AttributeError "torch_musa" "nvtx"))
  /\ range_pop Samples.env_broken fresh_world
     = (fresh_world, Raises (AttributeError "torch_musa" "nvtx"))
  /\ (range_push Samples.env_broken "step" fresh_world).2 <> Returns VNone
  /\ (range_pop Samples.env_broken fresh_world).2 <> Returns VNone
  /\ memory_stats Samples.env_broken None fresh_world
     = (fresh_world, Returns VNone)
  /\ reset_peak_memory_stats Samples.env_broken None fresh_world
     = (fresh_world, Returns VNone)
  /\ memory_reserved Samples.env_broken None fresh_world
     = (fresh_world, Returns VNone)
  /\ max_memory_reserved Samples.env_broken None fresh_world
     = (fresh_world, Returns VNone)
  /\ amp Samples.env_broken fresh_world = (fresh_world, Returns VNone).
Proof.
  repeat apply conj; try reflexivity; discriminate.
Qed.

(** ** Lookups on the registry *)

Section Registry.

Context (env : Env).

Lemma count_events_with_registry (p : event -> bool) (d : gmap string pyclass)
      (evs : list event) (w : World) :
  count_events p (with_registry d evs w)
  = (count_events p w + length (List.filter p evs))%nat.
Proof.
  unfold count_events, with_registry; cbn.
  by rewrite List.filter_app, length_app.
Qed.

(** After [_lazy_init_class_dict], however it ends, the dict exists. *)
Lemma lazy_init_some (w : World) :
  exists d, class_dict (_lazy_init_class_dict env w).1 = Some d.
Proof.
  destruct (class_dict w) as [d|] eqn:Hw.
  - rewrite (lazy_init_again env w d Hw). by exists d.
  - rewrite (lazy_init_first env w Hw). by eexists.
Qed.

Lemma get_op_builder_ready (n : string) (w : World) (d : gmap string pyclass) :
  class_dict w = Some d ->
  get_op_builder env n w = (w, Returns (d !! n)).
Proof.
  intros Hw. unfold get_op_builder, bind.
  rewrite (lazy_init_again env w d Hw).
  unfold read_class_dict. rewrite Hw. by destruct (d !! n).
Qed.

Lemma create_op_builder_ready (n : string) (w : World) (d : gmap string pyclass) :
  class_dict w = Some d ->
  create_op_builder env n w
  = match d !! n with
    | Some cls => ((construct cls w).1, Returns (Some (Instance cls (next_id w))))
    | None => (w, Returns None)
    end.
Proof.
  intros Hw. unfold create_op_builder, bind.
  rewrite (lazy_init_again env w d Hw).
  unfold read_class_dict. rewrite Hw. by destruct (d !! n).
Qed.

(** A method that starts with [_lazy_init_class_dict] raises whatever
    that raises and otherwise goes on from the world it leaves. *)
Lemma get_op_builder_after_init (n : string) (w : World) :
  get_op_builder env n w
  = match _lazy_init_class_dict env w with
    | (w1, Returns _) => get_op_builder env n w1
    | (w1, Raises e) => (w1, Raises e)
    end.
Proof.
  destruct (lazy_init_some w) as [d Hd].
  unfold get_op_builder at 1. unfold bind at 1.
  destruct (_lazy_init_class_dict env w) as [w1 [[]|e]]; cbn in Hd; [|done].
  rewrite (get_op_builder_ready n w1 d Hd).
  unfold bind, read_class_dict. rewrite Hd. by destruct (d !! n).
Qed.

Lemma create_op_builder_after_init (n : string) (w : World) :
  create_op_builder env n w
  = match _lazy_init_class_dict env w with
    | (w1, Returns _) => create_op_builder env n w1
    | (w1, Raises e) => (w1, Raises e)
    end.
Proof.
  destruct (lazy_init_some w) as [d Hd].
  unfold create_op_builder at 1. unfold bind at 1.
  destruct (_lazy_init_class_dict env w) as [w1 [[]|e]]; cbn in Hd; [|done].
  unfold create_op_builder, bind.
  by rewrite (lazy_init_again env w1 d Hd).
Qed.

(** Once the dict exists a call keeps it, scans and imports nothing and
    does not raise. *)
Lemma run_call_ready (c : call) (w : World) (d : gmap string pyclass) :
  class_dict w = Some d ->
  class_dict (run_call env c w).1 = Some d
  /\ scans (run_call env c w).1 = scans w
  /\ imports (run_call env c w).1 = imports w
  /\ exists v, (run_call env c w).2 = Returns v.
Proof.
  intros Hw. destruct c as [n|n]; unfold run_call, bind.
  - rewrite (get_op_builder_ready n w d Hw). cbn. eauto.
  - rewrite (create_op_builder_ready n w d Hw).
    destruct (d !! n) as [cls|]; cbn; [|eauto].
    unfold scans, imports, count_events; cbn.
    rewrite !List.filter_app, !length_app; cbn.
    repeat split; [done | lia | lia | eauto].
Qed.

Lemma run_calls_ready (cs : list call) :
  forall (w : World) (d : gmap string pyclass),
    class_dict w = Some d ->
    class_dict (run_calls env cs w).1 = Some d
    /\ scans (run_calls env cs w).1 = scans w
    /\ imports (run_calls env cs w).1 = imports w
    /\ Forall (fun r => exists v, r = Returns v) (run_calls env cs w).2.
Proof.
  induction cs as [|c cs IH]; intros w d Hw; cbn [run_calls].
  - cbn. repeat split; [done | constructor].
  - destruct (run_call_ready c w d Hw) as (Hd & Hs & Hi & Hv).
    destruct (run_call env c w) as [w1 r]; cbn in Hd, Hs, Hi, Hv.
    destruct (IH w1 d Hd) as (Hd' & Hs' & Hi' & Hv').
    destruct (run_calls env cs w1) as [w2 rs]; cbn in *.
    repeat split; [done | congruence | congruence | by constructor].
Qed.

(** The first call of either kind leaves the dict in place, whether it
    returns or raises. *)
Lemma run_call_some (c : call) (w : World) :
  exists d, class_dict (run_call env c w).1 = Some d.
Proof.
  destruct (class_dict w) as [d|] eqn:Hw.
  - exists d. by apply run_call_ready.
  - destruct c as [n|n]; unfold run_call, bind.
    + rewrite get_op_builder_after_init, (lazy_init_first env w Hw).
      destruct (discovery_outcome env) as [[]|e]; [|by eexists].
      erewrite get_op_builder_ready by reflexivity. by eexists.
    + rewrite create_op_builder_after_init, (lazy_init_first env w Hw).
      destruct (discovery_outcome env) as [[]|e]; [|by eexists].
      erewrite create_op_builder_ready by reflexivity.
      destruct (_ !! n); by eexists.
Qed.

End Registry.

(** ** One discovery per instance *)

Lemma no_scan_in_submodule_imports (dir : string) (names : list string) :
  List.filter is_scan (map (submodule_import dir) names) = [].
Proof. induction names; [done | exact IHnames]. Qed.

Lemma scans_of_discovery (env : Env) (pkg : pymodule) :
  import_module env (package_name env) = Returns pkg ->
  length (List.filter is_scan (discovery_trace env)) = 1%nat.
Proof.
  intros H. unfold discovery_trace. rewrite H. cbn.
  by rewrite no_scan_in_submodule_imports.
Qed.

(** C3: whatever the first call on an instance is and however it ends, the
    dict exists afterwards and every later call, of either kind, keeps that
    very dict and adds no directory scan and no import; two consecutive
    [get_op_builder] calls on a new instance scan exactly once. *)
Theorem discovery_runs_once (env : Env) (w : World) :
  (forall (c : call) (cs : list call),
      let w1 := (run_call env c w).1 in
      let w2 := (run_calls env cs w1).1 in
      class_dict w1 <> None
      /\ class_dict w2 = class_dict w1
      /\ scans w2 = scans w1
      /\ imports w2 = imports w1)
  /\ (forall (n1 n2 : string) (pkg : pymodule),
        class_dict w = None ->
        import_module env (package_name env) = Returns pkg ->
        let w1 := (get_op_builder env n1 w).1 in
        let w2 := (get_op_builder env n2 w1).1 in
        scans w1 = S (scans w) /\ w2 = w1 /\ scans w2 = S (scans w)).
Proof.
  split.
  - intros c cs w1 w2. destruct (run_call_some env c w) as [d Hd].
    fold w1 in Hd. destruct (run_calls_ready env cs w1 d Hd) as (H1 & H2 & H3 & _).
    fold w2 in H1, H2, H3. rewrite Hd. by repeat split.
  - intros n1 n2 pkg Hw Hpkg w1 w2.
    assert (Hw1 : w1 = with_registry (collect (discovered env) ∅)
                         (discovery_trace env) w).
    { unfold w1. rewrite get_op_builder_after_init, (lazy_init_first env w Hw).
      destruct (discovery_outcome env) as [[]|e]; [|done].
      by erewrite get_op_builder_ready. }
    assert (Hw2 : w2 = w1).
    { unfold w2. rewrite Hw1. by erewrite get_op_builder_ready. }
    assert (Hs : scans w1 = S (scans w)).
    { rewrite Hw1. unfold scans. rewrite count_events_with_registry.
      rewrite (scans_of_discovery env pkg Hpkg). lia. }
    by rewrite Hw2.
Qed.

Lemma discovery_runs_once_witness :
  class_dict fresh_world = None
  /\ import_module Samples.env_ok (package_name Samples.env_ok)
     = Returns Samples.package
  /\ scans (get_op_builder Samples.env_ok "FusedAdamBuilder"
              (get_op_builder Samples.env_ok "AsyncIOBuilder" fresh_world).1).1
     = 1%nat.
Proof.
  split; [reflexivity|]. split; [reflexivity|].
  destruct (discovery_runs_once Samples.env_ok fresh_world) as [_ H].
  apply (H "AsyncIOBuilder" "FusedAdamBuilder" Samples.package);
    reflexivity.
Defined.

(** ** Unknown names *)

(** C5: when the registry that [_lazy_init_class_dict] hands over (already
    there, or just discovered) has no entry for a name, both
    [get_op_builder] and [create_op_builder] return [None] for it and do
    nothing else. *)
Theorem unknown_builder_is_none (env : Env) (name : string) (w w1 : World) :
  _lazy_init_class_dict env w = (w1, Returns tt) ->
  (forall d, class_dict w1 = Some d -> d !! name = None) ->
  get_op_builder env name w = (w1, Returns None)
  /\ create_op_builder env name w = (w1, Returns None).
Proof.
  intros Hinit Hname.
  destruct (lazy_init_some env w) as [d Hd]. rewrite Hinit in Hd; cbn in Hd.
  rewrite get_op_builder_after_init, create_op_builder_after_init, Hinit.
  rewrite (get_op_builder_ready env name w1 d Hd).
  rewrite (create_op_builder_ready env name w1 d Hd).
  by rewrite (Hname d Hd).
Qed.

Lemma unknown_builder_is_none_witness :
  get_op_builder Samples.env_ok "Nonexistent" fresh_world
  = ((_lazy_init_class_dict Samples.env_ok fresh_world).1, Returns None)
  /\ create_op_builder Samples.env_ok "Nonexistent" fresh_world
     = ((_lazy_init_class_dict Samples.env_ok fresh_world).1, Returns None).
Proof.
  apply (unknown_builder_is_none Samples.env_ok "Nonexistent" fresh_world).
  - vm_compute. reflexivity.
  - intros d Hd. vm_compute in Hd. injection Hd as <-. vm_compute. reflexivity.
Defined.

Example unknown_builder_ready :
  get_op_builder Samples.env_ok "Nonexistent" Samples.ready_world
  = (Samples.ready_world, Returns None).
Proof. vm_compute. reflexivity. Qed.

(** ** New instances *)

Lemma ids_below_construct (cls : pyclass) (w : World) :
  ids_below w -> ids_below (construct cls w).1.
Proof.
  unfold ids_below; cbn. intros H c id Hin.
  apply in_app_or in Hin as [Hin|[Heq|[]]].
  - specialize (H c id Hin). lia.
  - injection Heq as _ <-. lia.
Qed.

(** C8: for a name the registry maps to a class, each [create_op_builder]
    call builds a new object of that class: two consecutive calls return
    two instances with different identities, both different from every
    object built earlier, and the registry stays as it is. *)
Theorem create_op_builder_fresh (env : Env) (name : string) (w w0 : World)
        (d : gmap string pyclass) (cls : pyclass) :
  _lazy_init_class_dict env w = (w0, Returns tt) ->
  class_dict w0 = Some d ->
  d !! name = Some cls ->
  exists (w1 w2 : World) (i1 i2 : instance),
    create_op_builder env name w = (w1, Returns (Some i1))
    /\ create_op_builder env name w1 = (w2, Returns (Some i2))
    /\ inst_class i1 = cls /\ inst_class i2 = cls
    /\ inst_id i1 <> inst_id i2 /\ i1 <> i2
    /\ class_dict w2 = Some d
    /\ (ids_below w0 ->
        ids_below w2
        /\ forall c id, In (EvConstruct c id) (trace w0) ->
                        id <> inst_id i1 /\ id <> inst_id i2).
Proof.
  intros Hinit Hd Hname.
  exists (construct cls w0).1, (construct cls (construct cls w0).1).1,
    (Instance cls (next_id w0)), (Instance cls (S (next_id w0))).
  rewrite create_op_builder_after_init, Hinit.
  rewrite (create_op_builder_ready env name w0 d Hd), Hname.
  rewrite (create_op_builder_ready env name (construct cls w0).1 d) by done.
  rewrite Hname. cbn [inst_class inst_id].
  split; [reflexivity|]. split; [reflexivity|].
  split; [reflexivity|]. split; [reflexivity|].
  split; [lia|]. split; [intros Heq; injection Heq; lia|].
  split; [exact Hd|].
  intros Hbelow. split.
  - by do 2 apply ids_below_construct.
  - intros c id Hin. specialize (Hbelow c id Hin). lia.
Qed.

Lemma create_op_builder_fresh_witness :
  exists (w1 w2 : World) (i1 i2 : instance),
    create_op_builder Samples.env_ok "AsyncIOBuilder" fresh_world
    = (w1, Returns (Some i1))
    /\ create_op_builder Samples.env_ok "AsyncIOBuilder" w1
       = (w2, Returns (Some i2))
    /\ inst_class i1 = Samples.AsyncIOBuilder
    /\ inst_class i2 = Samples.AsyncIOBuilder
    /\ i1 <> i2.
Proof.
  destruct (create_op_builder_fresh Samples.env_ok "AsyncIOBuilder" fresh_world
              (_lazy_init_class_dict Samples.env_ok fresh_world).1
              (collect (discovered Samples.env_ok) ∅) Samples.AsyncIOBuilder)
    as (w1 & w2 & i1 & i2 & H1 & H2 & H3 & H4 & _ & H6 & _).
  - vm_compute. reflexivity.
  - vm_compute. reflexivity.
  - vm_compute. reflexivity.
  - by exists w1, w2, i1, i2.
Defined.

(** ** A discovery that fails *)

(** When the outer loop stops at a failing import, the names split into the
    ones handled before it, the failing one and the ones never reached, and
    only the first group has contributed to the dict. *)
Lemma first_failure_split (env : Env) (dir : string) (names : list string)
      (e : exn) :
  first_failure env dir names = Some e ->
  exists pre bad rest,
    names = (pre ++ bad :: rest)%list
    /\ module_selected bad = true
    /\ import_module env (dir +:+ "." +:+ bad) = Raises e
    /\ first_failure env dir pre = None
    /\ loaded_members env dir names = loaded_members env dir pre.
Proof.
  induction names as [|n names IH]; cbn [first_failure loaded_members];
    [discriminate|].
  destruct (module_selected n) eqn:Hsel.
  - destruct (import_module env (dir +:+ "." +:+ n)) as [m|e'] eqn:Himp.
    + intros H. destruct (IH H) as (pre & bad & rest & -> & Hb & Hi & Hp & Hl).
      exists (n :: pre), bad, rest. cbn [first_failure loaded_members].
      rewrite Hsel, Himp. repeat split; try done. by rewrite Hl.
    + intros [= ->]. exists [], n, names. by repeat split.
  - intros H. destruct (IH H) as (pre & bad & rest & -> & Hb & Hi & Hp & Hl).
    exists (n :: pre), bad, rest. cbn [first_failure loaded_members].
    rewrite Hsel. by repeat split.
Qed.

(** A first call can only raise what discovery raised. *)
Lemma first_call_raises (env : Env) (c : call) (w w1 : World) (e : exn) :
  class_dict w = None ->
  run_call env c w = (w1, Raises e) ->
  discovery_outcome env = Raises e
  /\ w1 = with_registry (collect (discovered env) ∅) (discovery_trace env) w.
Proof.
  intros Hw Hrun. destruct c as [n|n]; unfold run_call, bind in Hrun.
  - rewrite get_op_builder_after_init, (lazy_init_first env w Hw) in Hrun.
    destruct (discovery_outcome env) as [[]|e'].
    + erewrite get_op_builder_ready in Hrun by reflexivity. discriminate.
    + by injection Hrun as <- <-.
  - rewrite create_op_builder_after_init, (lazy_init_first env w Hw) in Hrun.
    destruct (discovery_outcome env) as [[]|e'].
    + erewrite create_op_builder_ready in Hrun by reflexivity.
      destruct (_ !! n); discriminate.
    + by injection Hrun as <- <-.
Qed.

(** C1, as the code has it: the dict is created before discovery starts, so
    when the first call on an instance raises, what it raises is the import
    error of the package or of a selected submodule, and the instance is
    left with a dict (empty in the first case, filled from the submodules
    handled before the failing one in the second), not with [None]; every
    later sequence of calls keeps that dict, scans and imports nothing and
    raises nothing. *)
Theorem failed_discovery_keeps_partial_registry
        (env : Env) (c : call) (w w1 : World) (e : exn) :
  class_dict w = None ->
  run_call env c w = (w1, Raises e) ->
  ((import_module env (package_name env) = Raises e
    /\ class_dict w1 = Some ∅)
   \/ (exists pkg pre bad rest,
          import_module env (package_name env) = Returns pkg
          /\ iter_modules env (mod_dir pkg) = (pre ++ bad :: rest)%list
          /\ module_selected bad = true
          /\ import_module env (package_name env +:+ "." +:+ bad) = Raises e
          /\ first_failure env (package_name env) pre = None
          /\ class_dict w1
             = Some (collect (loaded_members env (package_name env) pre) ∅)))
  /\ (forall cs : list call,
        class_dict (run_calls env cs w1).1 = class_dict w1
        /\ scans (run_calls env cs w1).1 = scans w1
        /\ imports (run_calls env cs w1).1 = imports w1
        /\ Forall (fun r => exists v, r = Returns v) (run_calls env cs w1).2).
Proof.
  intros Hw Hrun.
  destruct (first_call_raises env c w w1 e Hw Hrun) as [Hout ->].
  split.
  - unfold discovery_outcome in Hout. unfold discovered, listed_modules.
    destruct (import_module env (package_name env)) as [pkg|e'] eqn:Hpkg.
    + right.
      destruct (first_failure env (package_name env)
                  (iter_modules env (mod_dir pkg))) as [e'|] eqn:Hff;
        [|discriminate].
      injection Hout as ->.
      destruct (first_failure_split _ _ _ _ Hff)
        as (pre & bad & rest & Hn & Hb & Hi & Hp & Hl).
      exists pkg, pre, bad, rest. cbn [class_dict with_registry].
      by rewrite Hl.
    + left. by injection Hout as ->.
  - intros cs.
    destruct (run_calls_ready env cs
                (with_registry (collect (discovered env) ∅)
                   (discovery_trace env) w)
                (collect (discovered env) ∅) eq_refl) as (H1 & H2 & H3 & H4).
    by rewrite H1.
Qed.

Lemma failed_discovery_keeps_partial_registry_witness :
  let w1 := (get_op_builder Samples.env_broken "FusedAdamBuilder" fresh_world).1 in
  class_dict fresh_world = None
  /\ run_call Samples.env_broken (GetOpBuilder "FusedAdamBuilder") fresh_world
     = (w1, Raises (ImportError "op_builder.broken"))
  /\ (forall cs : list call,
        class_dict (run_calls Samples.env_broken cs w1).1 = class_dict w1
        /\ scans (run_calls Samples.env_broken cs w1).1 = scans w1).
Proof.
  intros w1.
  assert (Hrun : run_call Samples.env_broken (GetOpBuilder "FusedAdamBuilder")
                   fresh_world
                 = (w1, Raises (ImportError "op_builder.broken")))
    by (vm_compute; reflexivity).
  split; [reflexivity|]. split; [exact Hrun|].
  intros cs.
  destruct (failed_discovery_keeps_partial_registry Samples.env_broken
              (GetOpBuilder "FusedAdamBuilder") fresh_world w1
              (ImportError "op_builder.broken") eq_refl Hrun) as [_ H].
  destruct (H cs) as (H1 & H2 & _). by split.
Defined.

(** C1 as stated fails: after a first call that raised on a broken
    submodule the dict is not [None] but holds the one builder found before
    the failure; the next call runs no discovery and answers [None] for a
    builder that sits in a submodule listed after the broken one. *)
Lemma failed_discovery_is_not_rolled_back :
  let r1 := get_op_builder Samples.env_broken "FusedAdamBuilder" fresh_world in
  let r2 := get_op_builder Samples.env_broken "FusedAdamBuilder" r1.1 in
  r1.2 = Raises (ImportError "op_builder.broken")
  /\ class_dict r1.1 = Some {[ "AsyncIOBuilder" := Samples.AsyncIOBuilder ]}
  /\ class_dict r1.1 <> None
  /\ r2.2 = Returns None
  /\ scans r1.1 = 1%nat
  /\ scans r2.1 = 1%nat
  /\ import_module Samples.env_broken "op_builder.fused_adam"
     = Returns Samples.fused_adam.
Proof.
  vm_compute. repeat apply conj; try reflexivity. discriminate.
Qed.

(** ** What ends up in the registry *)

Lemma first_binding_cons (n k : string) (c : pyclass)
      (l : list (string * pyclass)) :
  first_binding n ((k, c) :: l)
  = if String.eqb k n then Some c else first_binding n l.
Proof. unfold first_binding; cbn. by destruct (String.eqb k n). Qed.

Lemma first_binding_in (n : string) (c : pyclass) (l : list (string * pyclass)) :
  first_binding n l = Some c -> In (n, c) l.
Proof.
  induction l as [|[k c'] l IH]; [discriminate|].
  rewrite first_binding_cons.
  destruct (String.eqb_spec k n) as [->|_].
  - intros [= ->]. by left.
  - intros H. right. by apply IH.
Qed.

Lemma first_binding_found (n : string) (c : pyclass)
      (l : list (string * pyclass)) :
  In (n, c) l -> is_Some (first_binding n l).
Proof.
  induction l as [|[k c'] l IH]; [intros []|].
  rewrite first_binding_cons. intros [Heq|Hin].
  - injection Heq as -> ->. by rewrite String.eqb_refl.
  - destruct (String.eqb k n); [done | by apply IH].
Qed.

(** The inner loop as a lookup table: a name already bound keeps its class,
    a new name gets the first accepted class found under it. *)
Lemma collect_lookup (members : list (string * pyclass)) :
  forall (d : gmap string pyclass) (n : string),
    collect members d !! n
    = match d !! n with
      | Some c => Some c
      | None => first_binding n (accepted_symbols members)
      end.
Proof.
  induction members as [|[k c] members IH]; intros d n.
  - cbn. by destruct (d !! n).
  - change (collect ((k, c) :: members) d)
      with (collect members (register d (k, c))).
    rewrite IH. unfold register, accepted_symbols; cbn [List.filter fst snd].
    destruct (member_accepted k); [|done].
    rewrite first_binding_cons.
    destruct (d !! k) eqn:Hk.
    + destruct (d !! n) eqn:Hn; [done|].
      destruct (String.eqb_spec k n) as [->|_]; [congruence | done].
    + destruct (String.eqb_spec k n) as [->|Hne].
      * by rewrite lookup_insert_eq, Hk.
      * by rewrite lookup_insert_ne.
  Qed.

(** C6: the inner loop binds an accepted name only when the dict has no
    entry for it, so an existing entry is kept and a new name is bound to
    the first class found under it; over a whole discovery run each name in
    the registry maps to the first accepted symbol of that name in
    enumeration order. *)
Theorem first_discovery_wins (env : Env) :
  (forall (members : list (string * pyclass)) (w : World)
          (d : gmap string pyclass),
      class_dict w = Some d ->
      exists d',
        scan_members members w
        = ({| class_dict := Some d'; trace := trace w; next_id := next_id w |},
           Returns tt)
        /\ forall n, d' !! n
                     = match d !! n with
                       | Some c => Some c
                       | None => first_binding n (accepted_symbols members)
                       end)
  /\ (forall w : World,
        class_dict w = None ->
        exists d,
          class_dict (_lazy_init_class_dict env w).1 = Some d
          /\ forall n, d !! n = first_binding n (accepted_symbols (discovered env))).
Proof.
  split.
  - intros members w d Hw. exists (collect members d). split.
    + by apply scan_members_run.
    + apply collect_lookup.
  - intros w Hw. rewrite (lazy_init_first env w Hw).
    exists (collect (discovered env) ∅). split; [done|].
    intros n. by rewrite collect_lookup, lookup_empty.
Qed.

Lemma first_discovery_wins_witness :
  In ("AsyncIOBuilder", Samples.OtherAsyncIO) (discovered Samples.env_ok)
  /\ exists d,
      class_dict (_lazy_init_class_dict Samples.env_ok fresh_world).1 = Some d
      /\ d !! "AsyncIOBuilder" = Some Samples.AsyncIOBuilder.
Proof.
  split; [vm_compute; tauto|].
  destruct (first_discovery_wins Samples.env_ok) as [_ H].
  destruct (H fresh_world eq_refl) as (d & Hd & Hn).
  exists d. split; [exact Hd|]. rewrite Hn. vm_compute. reflexivity.
Defined.

Example scan_members_keeps_first :
  class_dict
    (scan_members [("XBuilder", Samples.AsyncIOBuilder);
                   ("XBuilder", Samples.FusedAdamBuilder)]
       {| class_dict := Some ∅; trace := []; next_id := 0 |}).1
  = Some {[ "XBuilder" := Samples.AsyncIOBuilder ]}.
Proof. vm_compute. reflexivity. Qed.

(** ** The two name filters *)

Lemma module_selected_spec (module_name : string) :
  module_selected module_name = true
  <-> module_name <> "all_ops" /\ module_name <> "builder"
      /\ module_name <> "cpu".
Proof.
  unfold module_selected. rewrite !andb_true_iff, !negb_true_iff.
  rewrite !String.eqb_neq. tauto.
Qed.

Lemma member_accepted_spec (member_name : string) :
  member_accepted member_name = true
  <-> (exists p, member_name = p +:+ "Builder")
      /\ member_name <> "OpBuilder" /\ member_name <> "CUDAOpBuilder"
      /\ member_name <> "TorchCPUOpBuilder".
Proof.
  unfold member_accepted. rewrite !andb_true_iff, !negb_true_iff.
  rewrite !String.eqb_neq, PyStrFacts.endswith_spec. tauto.
Qed.

Section Filters.

Context (env : Env) (dir : string).

(** Whatever the inner loop sees comes from a selected submodule that was
    listed and imported. *)
Lemma loaded_members_origin (names : list string) (p : string * pyclass) :
  In p (loaded_members env dir names) ->
  exists mn m,
    In mn names /\ module_selected mn = true
    /\ import_module env (dir +:+ "." +:+ mn) = Returns m
    /\ In p (mod_members m).
Proof.
  induction names as [|n names IH]; cbn [loaded_members]; [intros []|].
  destruct (module_selected n) eqn:Hsel.
  - destruct (import_module env (dir +:+ "." +:+ n)) as [m|e] eqn:Himp;
      [|intros []].
    intros Hin. apply in_app_or in Hin as [Hin|Hin].
    + exists n, m. repeat split; try done. by left.
    + destruct (IH Hin) as (mn & m' & H1 & H2). exists mn, m'.
      split; [by right | done].
  - intros Hin. destruct (IH Hin) as (mn & m' & H1 & H2). exists mn, m'.
    split; [by right | done].
Qed.

(** When no import fails, the inner loop sees every selected submodule. *)
Lemma loaded_members_complete (names : list string) (mn : string)
      (m : pymodule) (p : string * pyclass) :
  first_failure env dir names = None ->
  In mn names -> module_selected mn = true ->
  import_module env (dir +:+ "." +:+ mn) = Returns m ->
  In p (mod_members m) ->
  In p (loaded_members env dir names).
Proof.
  intros Hff Hin Hsel Himp Hp.
  induction names as [|n names IH]; [destruct Hin|].
  cbn [first_failure loaded_members] in *.
  destruct Hin as [->|Hin].
  - rewrite Hsel, Himp. apply in_or_app. by left.
  - destruct (module_selected n); [|by apply IH].
    destruct (import_module env (dir +:+ "." +:+ n)); [|discriminate].
    apply in_or_app. right. by apply IH.
Qed.

Lemma attempted_selected (names : list string) (mn : string) :
  In mn (attempted env dir names) ->
  module_selected mn = true /\ In mn names.
Proof.
  induction names as [|n names IH]; cbn [attempted]; [intros []|].
  destruct (module_selected n) eqn:Hsel.
  - destruct (import_module env (dir +:+ "." +:+ n)).
    + intros [<-|Hin]; [split; [done | by left]|].
      destruct (IH Hin). split; [done | by right].
    + intros [<-|[]]. split; [done | by left].
  - intros Hin. destruct (IH Hin). split; [done | by right].
Qed.

End Filters.

(** A submodule that is not selected is never imported by discovery. *)
Lemma excluded_module_not_imported (env : Env) (mn : string) :
  module_selected mn = false ->
  ~ In (submodule_import (package_name env) mn) (discovery_trace env).
Proof.
  intros Hsel. unfold discovery_trace, submodule_import.
  intros [Heq|[Heq|Hin]]; [discriminate| |].
  - injection Heq as Heq. revert Heq. by apply PyStrFacts.append_not_self.
  - destruct (import_module env (package_name env)) as [pkg|]; [|destruct Hin].
    destruct Hin as [Heq|Hin]; [discriminate|].
    apply in_map_iff in Hin as (mn' & Heq & Hin).
    injection Heq as Heq. apply PyStrFacts.append_inj_l in Heq.
    apply PyStrFacts.append_inj_l in Heq. subst mn'.
    apply attempted_selected in Hin as [Hsel' _]. congruence.
Qed.

(** C7: the outer loop selects a submodule exactly when its name is none of
    [all_ops], [builder], [cpu], and the inner loop accepts a symbol exactly
    when its name ends with [Builder] and is none of [OpBuilder],
    [CUDAOpBuilder], [TorchCPUOpBuilder]. A discovery run imports no
    excluded submodule; every registry key is an accepted name bound to a
    symbol of a listed, selected, imported submodule; and when the run
    returns, every accepted symbol name of such a submodule is a key. *)
Theorem discovery_filters (env : Env) :
  (forall mn : string,
      module_selected mn = true
      <-> mn <> "all_ops" /\ mn <> "builder" /\ mn <> "cpu")
  /\ (forall n : string,
        member_accepted n = true
        <-> (exists p, n = p +:+ "Builder")
            /\ n <> "OpBuilder" /\ n <> "CUDAOpBuilder"
            /\ n <> "TorchCPUOpBuilder")
  /\ (forall w : World,
        class_dict w = None ->
        exists d,
          _lazy_init_class_dict env w
          = (with_registry d (discovery_trace env) w, discovery_outcome env)
          /\ (forall mn, module_selected mn = false ->
                ~ In (submodule_import (package_name env) mn)
                     (discovery_trace env))
          /\ (forall n c, d !! n = Some c ->
                member_accepted n = true
                /\ exists mn m,
                    In mn (listed_modules env)
                    /\ module_selected mn = true
                    /\ import_module env (package_name env +:+ "." +:+ mn)
                       = Returns m
                    /\ In (n, c) (mod_members m))
          /\ (discovery_outcome env = Returns tt ->
              forall mn m n c,
                In mn (listed_modules env) ->
                module_selected mn = true ->
                import_module env (package_name env +:+ "." +:+ mn) = Returns m ->
                In (n, c) (mod_members m) ->
                member_accepted n = true ->
                is_Some (d !! n))).
Proof.
  split; [exact module_selected_spec|].
  split; [exact member_accepted_spec|].
  intros w Hw. exists (collect (discovered env) ∅).
  split; [by apply lazy_init_first|].
  split; [intros mn; apply excluded_module_not_imported|].
  split.
  - intros n c Hn. rewrite collect_lookup, lookup_empty in Hn.
    apply first_binding_in in Hn. unfold accepted_symbols in Hn.
    apply filter_In in Hn as [Hin Hacc]. split; [exact Hacc|].
    by apply loaded_members_origin in Hin.
  - intros Hout mn m n c Hmn Hsel Himp Hin Hacc.
    rewrite collect_lookup, lookup_empty.
    apply (first_binding_found n c). unfold accepted_symbols.
    apply filter_In. split; [|exact Hacc].
    unfold discovered. apply (loaded_members_complete env _ _ mn m); try done.
    unfold discovery_outcome in Hout. unfold listed_modules in *.
    destruct (import_module env (package_name env)) as [pkg|]; [|discriminate].
    by destruct (first_failure env (package_name env)
                   (iter_modules env (mod_dir pkg))).
Qed.

Lemma discovery_filters_witness :
  In ("OpBuilder", Samples.OpBuilder) (discovered Samples.env_ok)
  /\ ~ In (EvImport "op_builder.cpu") (discovery_trace Samples.env_ok)
  /\ exists d,
      class_dict (_lazy_init_class_dict Samples.env_ok fresh_world).1 = Some d
      /\ d !! "OpBuilder" = None
      /\ is_Some (d !! "FusedAdamBuilder").
Proof.
  destruct (discovery_filters Samples.env_ok) as (_ & Hacc & H).
  destruct (H fresh_world eq_refl) as (d & Hrun & Himp & Hkeys & Hall).
  split; [vm_compute; tauto|].
  split; [apply (Himp "cpu"); reflexivity|].
  exists d. split; [by rewrite Hrun|]. split.
  - destruct (d !! "OpBuilder") as [c|] eqn:Hd; [|done].
    destruct (Hkeys _ _ Hd) as [Hbad _]. discriminate.
  - apply (Hall eq_refl "fused_adam" Samples.fused_adam
             "FusedAdamBuilder" Samples.FusedAdamBuilder).
    + vm_compute. tauto.
    + reflexivity.
    + reflexivity.
    + left. reflexivity.
    + reflexivity.
Defined.

(** * Further properties of the adapter *)

(** ** Device names *)

Lemma format_int_inj (a b : Z) :
  PyStr.format_int a = PyStr.format_int b -> a = b.
Proof.
  unfold PyStr.format_int. intros H.
  assert (Hnn : forall z : Z,
             NilZero.int_of_string (NilZero.string_of_int (Z.to_int z))
             = Some (Z.to_int z)).
  { intros z. apply NilZero.isi; destruct z as [|p|p]; cbn;
      try discriminate; intros [= Hp];
      by apply (DecimalPos.Unsigned.to_uint_nonnil p). }
  apply (f_equal NilZero.int_of_string) in H. rewrite !Hnn in H.
  injection H as H. by apply DecimalZ.to_int_inj.
Qed.

(** X1: [device_name] gives different strings for different arguments: two
    indices get the same name only when they are equal, and no index gets
    the bare name that stands for "no index". *)
Theorem device_name_injective (a b : option Z) :
  device_name a = device_name b <-> a = b.
Proof.
  split; [|by intros ->].
  destruct a as [i|], b as [j|]; cbn [device_name]; intros H.
  - apply (PyStrFacts.append_inj_l "musa:") in H.
    f_equal. by apply format_int_inj.
  - discriminate.
  - discriminate.
  - done.
Qed.

(** ** The current device *)

(** X2: [current_device_name] makes the same single runtime call as
    [current_device]; when that returns index [i] the name is
    [device_name(i)], which [on_accelerator] accepts as a device string, and
    when it raises the same error comes out. *)
Theorem current_device_name_matches (dev : DeviceRuntime) (w : World) :
  current_device_name dev w
  = match current_device dev w with
    | (w', Returns i) => (w', Returns (device_name (Some i)))
    | (w', Raises e) => (w', Raises e)
    end
  /\ (forall w' s, current_device_name dev w = (w', Returns s) ->
        on_accelerator {| device_str := s |} = true
        /\ runtime_calls w' = S (runtime_calls w)
        /\ class_dict w' = class_dict w).
Proof.
  unfold current_device_name, current_device, bind, log, ret.
  destruct (dr_current_device dev) as [i|e]; cbn.
  - split; [done|]. intros w' s [= <- <-]. split; [|split; [|done]].
    + apply on_accelerator_true. by exists (PyStr.format_int i).
    + unfold runtime_calls, count_events; cbn.
      rewrite List.filter_app, length_app; cbn. lia.
  - split; [done|]. intros w' s [=].
Qed.

Lemma current_device_name_matches_witness :
  on_accelerator {| device_str := "musa:2" |} = true.
Proof.
  destruct (current_device_name_matches
              {| dr_current_device := Returns 2%Z; dr_default_generators := [] |}
              fresh_world) as [_ H].
  by destruct (H _ "musa:2" eq_refl) as [Hacc _].
Defined.

(** ** Methods that call the runtime *)

Lemma count_events_trace (p : event -> bool) (w w' : World) (evs : list event) :
  trace w' = (trace w ++ evs)%list ->
  count_events p w' = (count_events p w + length (List.filter p evs))%nat.
Proof.
  unfold count_events. intros ->. by rewrite List.filter_app, length_app.
Qed.

Lemma forward_run (env : Env) (path : string) (args : list pyarg) (w : World) :
  forward env path args w
  = ({| class_dict := class_dict w;
        trace := trace w ++ [EvRuntimeCall path args];
        next_id := next_id w |},
     rt_call (runtime env) path args).
Proof. reflexivity. Qed.

Lemma run_method_step (env : Env) (m : runtime_method) (w : World) :
  runtime_step env w (run_method env m w).1 (run_method env m w).2.
Proof.
  destruct m; cbn [run_method];
    unfold device, set_device, synchronize, set_rng_state, get_rng_state,
      manual_seed, manual_seed_all, initial_seed, empty_cache,
      memory_allocated, max_memory_allocated, reset_max_memory_allocated,
      memory_cached, max_memory_cached, reset_max_memory_cached,
      memory_stats, reset_peak_memory_stats, memory_reserved,
      max_memory_reserved, is_bf16_supported, is_available, amp,
      range_push, range_pop, nvtx;
    try (destruct device_index);
    try (match goal with
         | |- context [rt_hasattr ?r ?a] => destruct (rt_hasattr r a)
         end);
    try (match goal with
         | |- context [rt_nvtx ?r] =>
             let E := fresh "E" in
             destruct (rt_nvtx r) as [ns|] eqn:E;
             [unfold bind, ret;
              match goal with
              | |- context [ns ?a] => destruct (ns a)
              end
             |unfold bind, raise]
         end);
    try (rewrite forward_run; cbn [fst snd]; apply step_call; by left);
    try (unfold ret; cbn [fst snd]; apply step_quiet; by eauto).
  - unfold bind, ret. rewrite forward_run. cbn [arg_of_index].
    destruct (rt_call (runtime env) "set_device" [AInt z]) as [v|e] eqn:Hc;
      cbn [fst snd]; apply step_call; [right; eauto | left; by rewrite Hc].
  - unfold bind, ret. rewrite forward_run. cbn [arg_of_index].
    destruct (rt_call (runtime env) "set_device" [ANone]) as [v|e] eqn:Hc;
      cbn [fst snd]; apply step_call; [right; eauto | left; by rewrite Hc].
Qed.

(** X4: no method that forwards to the runtime touches the registry,
    allocates an object, imports or scans anything, and each makes at most
    one runtime call. When such a method raises, the error is either the
    one the runtime raised on that very call, handed on unchanged, or the
    [AttributeError] of looking up [nvtx] on a runtime without it. *)
Theorem runtime_methods_frame (env : Env) (m : runtime_method) (w : World) :
  let w' := (run_method env m w).1 in
  class_dict w' = class_dict w
  /\ next_id w' = next_id w
  /\ scans w' = scans w
  /\ imports w' = imports w
  /\ (runtime_calls w' <= S (runtime_calls w))%nat
  /\ (forall e, (run_method env m w).2 = Raises e ->
        (e = AttributeError "torch_musa" "nvtx"
         /\ rt_nvtx (runtime env) = None /\ w' = w)
        \/ (exists path args,
               rt_call (runtime env) path args = Raises e
               /\ trace w' = (trace w ++ [EvRuntimeCall path args])%list)).
Proof.
  intros w'. subst w'.
  destruct (run_method_step env m w) as [r Hr | path args r Hr].
  - repeat split; try done; [lia|].
    intros e ->. left.
    destruct Hr as [Hr | [Hr | [Hr Hn]]]; try discriminate.
    by injection Hr as ->.
  - repeat split; try done.
    + unfold scans. erewrite count_events_trace by reflexivity. cbn. lia.
    + unfold imports. erewrite count_events_trace by reflexivity. cbn. lia.
    + unfold runtime_calls. erewrite count_events_trace by reflexivity.
      cbn. lia.
    + intros e ->. right. exists path, args. split; [|done].
      destruct Hr as [Hr | (_ & Hr & _)]; [done | discriminate].
Qed.

Lemma runtime_methods_frame_witness :
  (run_method env_full (MMemoryReserved (Some 1%Z)) fresh_world).2
  = Raises (BackendError "device lost")
  /\ exists path args,
      rt_call (runtime env_full) path args = Raises (BackendError "device lost")
      /\ trace (run_method env_full (MMemoryReserved (Some 1%Z)) fresh_world).1
         = [EvRuntimeCall path args].
Proof.
  split; [reflexivity|].
  destruct (runtime_methods_frame env_full (MMemoryReserved (Some 1%Z))
              fresh_world) as (_ & _ & _ & _ & _ & H).
  destruct (H (BackendError "device lost") eq_refl)
    as [(Hbad & _)|(path & args & Hc & Ht)]; [discriminate|].
  by exists path, args.
Defined.

Example set_device_returns_none :
  (set_device Samples.env_ok (Some 1%Z) fresh_world).2 = Returns VNone.
Proof. reflexivity. Qed.

(** ** Registry calls, step by step *)

Section RegistrySteps.

Context (env : Env).

Lemma run_call_ready_eq (c : call) (w : World) (d : gmap string pyclass) :
  class_dict w = Some d ->
  run_call env c w
  = match c with
    | GetOpBuilder n => (w, Returns (RClass (d !! n)))
    | CreateOpBuilder n =>
        match d !! n with
        | Some cls => ((construct cls w).1,
                       Returns (RInstance (Some (Instance cls (next_id w)))))
        | None => (w, Returns (RInstance None))
        end
    end.
Proof.
  intros Hw. destruct c as [n|n]; unfold run_call, bind.
  - by rewrite (get_op_builder_ready env n w d Hw).
  - rewrite (create_op_builder_ready env n w d Hw). by destruct (d !! n).
Qed.

Lemma run_call_first_eq (c : call) (w : World) :
  class_dict w = None ->
  run_call env c w
  = match discovery_outcome env with
    | Returns _ => run_call env c (discovered_world env w)
    | Raises e => (discovered_world env w, Raises e)
    end.
Proof.
  intros Hw. unfold discovered_world.
  destruct c as [n|n]; unfold run_call, bind.
  - rewrite get_op_builder_after_init, (lazy_init_first env w Hw).
    by destruct (discovery_outcome env) as [[]|e].
  - rewrite create_op_builder_after_init, (lazy_init_first env w Hw).
    by destruct (discovery_outcome env) as [[]|e].
Qed.

Lemma discovery_trace_no_runtime_call :
  List.filter is_runtime_call (discovery_trace env) = [].
Proof.
  unfold discovery_trace. cbn.
  destruct (import_module env (package_name env)); [|done]. cbn.
  induction (attempted env (package_name env) (iter_modules env (mod_dir a)));
    [done | exact IHl].
Qed.

Lemma discovery_trace_scans :
  (length (List.filter is_scan (discovery_trace env)) <= 1)%nat.
Proof.
  unfold discovery_trace. cbn.
  destruct (import_module env (package_name env)); [|cbn; lia]. cbn.
  rewrite no_scan_in_submodule_imports. cbn. lia.
Qed.

(** One registry call: what it adds to the trace and to [next_id]. *)
Lemma run_call_effects (c : call) (w : World) :
  exists evs : list event,
    trace (run_call env c w).1 = (trace w ++ evs)%list
    /\ List.filter is_runtime_call evs = []
    /\ (length (List.filter is_scan evs) <= scans_left w)%nat
    /\ (next_id w <= next_id (run_call env c w).1)%nat
    /\ (forall i, (run_call env c w).2 = Returns (RInstance (Some i)) ->
          (next_id w <= inst_id i < next_id (run_call env c w).1)%nat).
Proof.
  assert (Hready : forall (w0 : World) d, class_dict w0 = Some d ->
    exists evs : list event,
      trace (run_call env c w0).1 = (trace w0 ++ evs)%list
      /\ List.filter is_runtime_call evs = []
      /\ List.filter is_scan evs = []
      /\ (next_id w0 <= next_id (run_call env c w0).1)%nat
      /\ (forall i, (run_call env c w0).2 = Returns (RInstance (Some i)) ->
            (next_id w0 <= inst_id i < next_id (run_call env c w0).1)%nat)).
  { intros w0 d Hd. rewrite (run_call_ready_eq c w0 d Hd).
    destruct c as [n|n].
    - exists []. cbn. rewrite app_nil_r.
      split; [done|]. split; [done|]. split; [done|]. split; [lia|].
      intros i [=].
    - destruct (d !! n) as [cls|].
      + exists [EvConstruct cls (next_id w0)]. cbn.
        split; [done|]. split; [done|]. split; [done|]. split; [lia|].
        intros i [= <-]. cbn. lia.
      + exists []. cbn. rewrite app_nil_r.
        split; [done|]. split; [done|]. split; [done|]. split; [lia|].
        intros i [=]. }
  destruct (class_dict w) as [d|] eqn:Hw.
  - destruct (Hready w d Hw) as (evs & H1 & H2 & H3 & H4 & H5).
    exists evs. rewrite H3. unfold scans_left. rewrite Hw. cbn.
    split; [done|]. split; [done|]. split; [lia|]. by split.
  - unfold scans_left. rewrite Hw. rewrite (run_call_first_eq c w Hw).
    destruct (discovery_outcome env) as [[]|e].
    + destruct (Hready (discovered_world env w) _ eq_refl)
        as (evs & H1 & H2 & H3 & H4 & H5).
      exists (discovery_trace env ++ evs)%list.
      split; [rewrite H1; unfold discovered_world, with_registry;
              cbn [trace]; by rewrite app_assoc|].
      split; [by rewrite List.filter_app, H2, discovery_trace_no_runtime_call|].
      split; [rewrite List.filter_app, H3, app_nil_r;
              apply discovery_trace_scans|].
      split; [exact H4 | exact H5].
    + exists (discovery_trace env). cbn.
      split; [done|]. split; [apply discovery_trace_no_runtime_call|].
      split; [apply discovery_trace_scans|]. split; [lia|]. intros i [=].
Qed.

End RegistrySteps.

(** X7: over the whole life of an instance there is at most one directory
    scan: any sequence of registry calls adds at most one, and none at all
    once the dict exists. *)
Theorem at_most_one_scan (env : Env) (cs : list call) (w : World) :
  (scans (run_calls env cs w).1
   <= scans w + scans_left w)%nat
  /\ (scans w <= scans (run_calls env cs w).1)%nat.
Proof.
  destruct cs as [|c cs]; [cbn; lia|]. cbn [run_calls].
  destruct (run_call_effects env c w) as (evs & Ht & _ & Hs & _).
  destruct (run_call_some env c w) as [d Hd].
  destruct (run_call env c w) as [w1 r]; cbn [fst] in Ht, Hd.
  destruct (run_calls_ready env cs w1 d Hd) as (_ & Hs2 & _).
  destruct (run_calls env cs w1) as [w2 rs]; cbn [fst] in *.
  rewrite Hs2. unfold scans. rewrite (count_events_trace _ w w1 evs Ht).
  lia.
Qed.

(** ** What discovery imports *)

Lemma first_failure_none_iff (env : Env) (dir : string) (names : list string) :
  first_failure env dir names = None <-> all_selected_import env dir names.
Proof.
  unfold all_selected_import.
  induction names as [|n names IH]; cbn [first_failure].
  - split; [constructor | done].
  - rewrite Forall_cons. rewrite <- IH.
    destruct (module_selected n).
    + destruct (import_module env (dir +:+ "." +:+ n)) as [m|e].
      * split; [eauto | tauto].
      * split; [discriminate|]. intros [[m Hm] _]; [done | discriminate].
    + split; [intros H; split; [discriminate | exact H] | tauto].
Qed.

Lemma discovery_outcome_returns (env : Env) :
  discovery_outcome env = Returns tt
  <-> exists pkg,
      import_module env (package_name env) = Returns pkg
      /\ all_selected_import env (package_name env)
           (iter_modules env (mod_dir pkg)).
Proof.
  unfold discovery_outcome.
  destruct (import_module env (package_name env)) as [pkg|e].
  - destruct (first_failure env (package_name env)
                (iter_modules env (mod_dir pkg))) eqn:Hff.
    + split; [discriminate|]. intros (pkg' & [= <-] & H).
      apply first_failure_none_iff in H. congruence.
    + split; [|done]. intros _. exists pkg. split; [done|].
      by apply first_failure_none_iff.
  - split; [discriminate | intros (pkg & [=] & _)].
Qed.

Lemma attempted_all (env : Env) (dir : string) (names : list string) :
  first_failure env dir names = None ->
  attempted env dir names = List.filter module_selected names.
Proof.
  induction names as [|n names IH];
    cbn [first_failure attempted List.filter]; [done|].
  destruct (module_selected n); [|exact IH].
  destruct (import_module env (dir +:+ "." +:+ n)); [|discriminate].
  intros H. by rewrite IH.
Qed.

Lemma attempted_until (env : Env) (dir : string) (pre rest : list string)
      (bad : string) (e : exn) :
  first_failure env dir pre = None ->
  module_selected bad = true ->
  import_module env (dir +:+ "." +:+ bad) = Raises e ->
  attempted env dir (pre ++ bad :: rest)
  = (List.filter module_selected pre ++ [bad])%list.
Proof.
  intros Hpre Hsel Hbad.
  induction pre as [|n pre IH];
    cbn [first_failure attempted List.filter app] in *.
  - by rewrite Hsel, Hbad.
  - destruct (module_selected n); [|by apply IH].
    destruct (import_module env (dir +:+ "." +:+ n)); [|discriminate].
    cbn [app]. f_equal. by apply IH.
Qed.

(** X11: a discovery run first tries the marker import, then imports the
    package and lists its directory once; after that it imports the
    selected submodules one by one in listing order, each once, and stops
    at the first one that fails: nothing listed after it is imported. *)
Theorem discovery_import_order (env : Env) (w : World) (pkg : pymodule) :
  class_dict w = None ->
  import_module env (package_name env) = Returns pkg ->
  let dir := package_name env in
  let names := iter_modules env (mod_dir pkg) in
  let start := [EvMarkerImport; EvImport dir; EvIterModules (mod_dir pkg)] in
  (all_selected_import env dir names ->
   trace (_lazy_init_class_dict env w).1
   = (trace w ++ start
        ++ map (submodule_import dir) (List.filter module_selected names))%list)
  /\ (forall pre bad rest e,
        names = (pre ++ bad :: rest)%list ->
        all_selected_import env dir pre ->
        module_selected bad = true ->
        import_module env (dir +:+ "." +:+ bad) = Raises e ->
        (_lazy_init_class_dict env w).2 = Raises e
        /\ trace (_lazy_init_class_dict env w).1
           = (trace w ++ start
                ++ map (submodule_import dir)
                     (List.filter module_selected pre ++ [bad]))%list).
Proof.
  intros Hw Hpkg dir names start.
  rewrite (lazy_init_first env w Hw).
  unfold discovery_trace, discovery_outcome. rewrite Hpkg.
  fold dir names. cbn [fst snd trace with_registry]. split.
  - intros Hall. apply first_failure_none_iff in Hall.
    by rewrite (attempted_all env dir names Hall).
  - intros pre bad rest e Hnames Hpre Hsel Hbad.
    apply first_failure_none_iff in Hpre.
    rewrite Hnames, (attempted_until env dir pre rest bad e Hpre Hsel Hbad).
    split; [|done].
    clear Hnames. induction pre as [|n pre IH]; cbn [first_failure app] in *.
    + by rewrite Hsel, Hbad.
    + destruct (module_selected n); [|by apply IH].
      destruct (import_module env (dir +:+ "." +:+ n)); [|discriminate].
      by apply IH.
Qed.

Lemma discovery_import_order_witness :
  trace (_lazy_init_class_dict Samples.env_broken fresh_world).1
  = [EvMarkerImport; EvImport "op_builder"; EvIterModules Samples.pkg_dir;
     EvImport "op_builder.async_io"; EvImport "op_builder.broken"].
Proof.
  destruct (discovery_import_order Samples.env_broken fresh_world
              Samples.package eq_refl eq_refl) as [_ H].
  destruct (H ["all_ops"; "async_io"] "broken" ["fused_adam"]
              (ImportError "op_builder.broken")) as [_ Ht].
  - reflexivity.
  - repeat constructor; [discriminate | intros _; eexists; reflexivity].
  - reflexivity.
  - reflexivity.
  - exact Ht.
Defined.

(** ** Listing order *)

Lemma first_binding_none (n : string) (l : list (string * pyclass)) :
  first_binding n l = None -> forall c, ~ In (n, c) l.
Proof.
  intros Hn c Hin. apply (first_binding_found n c) in Hin.
  rewrite Hn in Hin. by destruct Hin.
Qed.

(** Two association lists with the same bindings, one of them giving each
    name a single class, answer every lookup alike. *)
Lemma first_binding_same (l1 l2 : list (string * pyclass)) (n : string) :
  (forall p, In p l1 <-> In p l2) ->
  (forall k c c', In (k, c) l1 -> In (k, c') l1 -> c = c') ->
  first_binding n l1 = first_binding n l2.
Proof.
  intros Hsame Hfun.
  destruct (first_binding n l1) as [c|] eqn:H1;
    destruct (first_binding n l2) as [c'|] eqn:H2; try done.
  - apply first_binding_in in H1, H2. apply Hsame in H2.
    f_equal. by apply (Hfun n).
  - apply first_binding_in, Hsame in H1.
    by apply (first_binding_none n l2 H2 c) in H1.
  - apply first_binding_in, Hsame in H2.
    by apply (first_binding_none n l1 H1 c') in H2.
Qed.

Lemma loaded_members_in (env : Env) (dir : string) (names : list string)
      (p : string * pyclass) :
  first_failure env dir names = None ->
  In p (loaded_members env dir names)
  <-> exists mn m,
      In mn names /\ module_selected mn = true
      /\ import_module env (dir +:+ "." +:+ mn) = Returns m
      /\ In p (mod_members m).
Proof.
  intros Hff. split.
  - apply loaded_members_origin.
  - intros (mn & m & Hin & Hsel & Himp & Hp).
    by apply (loaded_members_complete env dir names mn m).
Qed.

(** X12: when discovery succeeds and no accepted name is bound to two
    different classes, the registry does not depend on the order in which
    the directory lists the submodules: the same package listed in another
    order gives a successful discovery with the same registry. *)
Theorem registry_order_independent (env1 env2 : Env) (w1 w2 : World) :
  class_dict w1 = None ->
  class_dict w2 = None ->
  marker_importable env1 = marker_importable env2 ->
  (forall n, import_module env1 n = import_module env2 n) ->
  Permutation (listed_modules env1) (listed_modules env2) ->
  (_lazy_init_class_dict env1 w1).2 = Returns tt ->
  (forall n c c',
      In (n, c) (accepted_symbols (discovered env1)) ->
      In (n, c') (accepted_symbols (discovered env1)) -> c = c') ->
  (_lazy_init_class_dict env2 w2).2 = Returns tt
  /\ class_dict (_lazy_init_class_dict env2 w2).1
     = class_dict (_lazy_init_class_dict env1 w1).1.
Proof.
  intros Hw1 Hw2 Hmark Himp Hperm Hok Hfun.
  rewrite (lazy_init_first env1 w1 Hw1) in *.
  rewrite (lazy_init_first env2 w2 Hw2). cbn [fst snd class_dict with_registry] in *.
  assert (Hdir : package_name env2 = package_name env1)
    by (unfold package_name; by rewrite Hmark).
  apply discovery_outcome_returns in Hok as (pkg & Hpkg & Hall).
  assert (Hpkg2 : import_module env2 (package_name env2) = Returns pkg)
    by (by rewrite Hdir, <- Himp).
  unfold discovered in *. unfold listed_modules in *.
  rewrite Hdir in *. rewrite Hpkg, Hpkg2 in *.
  set (dir := package_name env1) in *.
  set (names1 := iter_modules env1 (mod_dir pkg)) in *.
  set (names2 := iter_modules env2 (mod_dir pkg)) in *.
  assert (Hall2 : all_selected_import env2 dir names2).
  { unfold all_selected_import in *. rewrite Forall_forall in Hall.
    apply Forall_forall. intros mn Hin Hsel. rewrite <- Himp.
    apply Hall; [|exact Hsel]. apply list_elem_of_In.
    apply list_elem_of_In in Hin.
    by apply (Permutation_in mn (Permutation_sym Hperm)). }
  split.
  - apply discovery_outcome_returns. exists pkg. by rewrite Hdir.
  - f_equal. apply map_eq. intros n.
    rewrite !collect_lookup, !lookup_empty. symmetry.
    apply first_binding_same; [|exact Hfun].
    intros p. unfold accepted_symbols. rewrite !filter_In.
    apply first_failure_none_iff in Hall, Hall2.
    rewrite (loaded_members_in env1 dir names1 p Hall).
    rewrite (loaded_members_in env2 dir names2 p Hall2).
    split; intros [(mn & m & Hin & Hsel & Hm & Hp) Hacc]; (split; [|exact Hacc]);
      exists mn, m; repeat split; try done.
    + by apply (Permutation_in mn Hperm).
    + by rewrite <- Himp.
    + by apply (Permutation_in mn (Permutation_sym Hperm)).
    + by rewrite Himp.
Qed.

Lemma registry_order_independent_witness :
  class_dict (_lazy_init_class_dict Samples.env_reordered fresh_world).1
  = Some {[ "FusedAdamBuilder" := Samples.FusedAdamBuilder;
            "AsyncIOBuilder" := Samples.AsyncIOBuilder ]}.
Proof.
  destruct (registry_order_independent Samples.env_unique
              Samples.env_reordered fresh_world fresh_world) as [_ H].
  - reflexivity.
  - reflexivity.
  - reflexivity.
  - reflexivity.
  - vm_compute. apply perm_swap.
  - vm_compute. reflexivity.
  - intros n c c' H1 H2. vm_compute in H1, H2.
    destruct H1 as [[= <- <-]|[[= <- <-]|[]]];
      destruct H2 as [[=]|[[=]|[]]]; subst; try done.
  - rewrite H. vm_compute. reflexivity.
Defined.

(** ** What a failed discovery has registered *)

Lemma register_subseteq (d : gmap string pyclass) (m : string * pyclass) :
  d ⊆ register d m.
Proof.
  unfold register. destruct (member_accepted m.1); [|done].
  destruct (d !! m.1) eqn:Hk; [done|]. by apply insert_subseteq.
Qed.

(** The inner loop only ever adds to the dict. *)
Lemma collect_subseteq (members : list (string * pyclass)) :
  forall d : gmap string pyclass, d ⊆ collect members d.
Proof.
  induction members as [|m members IH]; intros d; [done|].
  change (collect (m :: members) d) with (collect members (register d m)).
  etrans; [apply register_subseteq | apply IH].
Qed.

Lemma loaded_members_app (env : Env) (dir : string) (pre tl : list string) :
  first_failure env dir pre = None ->
  loaded_members env dir (pre ++ tl)
  = (loaded_members env dir pre ++ loaded_members env dir tl)%list.
Proof.
  induction pre as [|n pre IH]; cbn [first_failure loaded_members app];
    [done|].
  destruct (module_selected n); [|exact IH].
  destruct (import_module env (dir +:+ "." +:+ n)); [|discriminate].
  intros H. by rewrite IH, app_assoc.
Qed.

Lemma loaded_members_ext (env env' : Env) (dir : string) (names : list string) :
  (forall mn, In mn names ->
              import_module env' (dir +:+ "." +:+ mn)
              = import_module env (dir +:+ "." +:+ mn)) ->
  loaded_members env' dir names = loaded_members env dir names
  /\ first_failure env' dir names = first_failure env dir names.
Proof.
  induction names as [|n names IH]; intros Hext;
    cbn [loaded_members first_failure]; [done|].
  destruct IH as [IH1 IH2]; [intros mn Hin; apply Hext; by right|].
  rewrite (Hext n) by (by left). rewrite IH1, IH2.
  by destruct (module_selected n).
Qed.

(** X14: the entries left behind by a discovery that failed at some
    submodule are entries a discovery of the same listing would also
    choose once that submodule (and anything after it) is different: with
    the same imports for the package and for the submodules listed before
    the failing one, the registry found on a new instance contains the
    partial one. *)
Theorem partial_registry_is_prefix (env env' : Env) (w w' : World)
        (pkg : pymodule) (pre rest : list string) (bad : string) (e : exn) :
  class_dict w = None ->
  class_dict w' = None ->
  marker_importable env' = marker_importable env ->
  import_module env (package_name env) = Returns pkg ->
  import_module env' (package_name env) = Returns pkg ->
  iter_modules env (mod_dir pkg) = (pre ++ bad :: rest)%list ->
  iter_modules env' (mod_dir pkg) = (pre ++ bad :: rest)%list ->
  all_selected_import env (package_name env) pre ->
  module_selected bad = true ->
  import_module env (package_name env +:+ "." +:+ bad) = Raises e ->
  (forall mn, In mn pre ->
              import_module env' (package_name env +:+ "." +:+ mn)
              = import_module env (package_name env +:+ "." +:+ mn)) ->
  exists d d',
    _lazy_init_class_dict env w
    = (with_registry d (discovery_trace env) w, Raises e)
    /\ class_dict (_lazy_init_class_dict env' w').1 = Some d'
    /\ d ⊆ d'.
Proof.
  intros Hw Hw' Hmark Hpkg Hpkg' Hnames Hnames' Hpre Hsel Hbad Hext.
  assert (Hdir : package_name env' = package_name env)
    by (unfold package_name; by rewrite Hmark).
  apply first_failure_none_iff in Hpre.
  rewrite (lazy_init_first env w Hw), (lazy_init_first env' w' Hw').
  cbn [fst class_dict with_registry].
  unfold discovered, listed_modules, discovery_outcome.
  rewrite Hdir, Hpkg, Hpkg', Hnames, Hnames'.
  set (dir := package_name env) in *.
  destruct (loaded_members_ext env env' dir pre Hext) as [Hl Hf].
  rewrite !loaded_members_app by congruence. rewrite Hl.
  cbn [loaded_members]. rewrite Hsel, Hbad, app_nil_r.
  assert (Hff : first_failure env dir (pre ++ bad :: rest) = Some e).
  { clear Hnames Hnames' Hext Hl Hf.
    induction pre as [|n pre IH]; cbn [first_failure app] in *.
    - by rewrite Hsel, Hbad.
    - destruct (module_selected n); [|by apply IH].
      destruct (import_module env (dir +:+ "." +:+ n)); [|discriminate].
      by apply IH. }
  rewrite Hff.
  exists (collect (loaded_members env dir pre) ∅). eexists.
  split; [reflexivity|]. split; [reflexivity|].
  rewrite collect_app. apply collect_subseteq.
Qed.

Lemma partial_registry_is_prefix_witness :
  exists d,
    class_dict (_lazy_init_class_dict Samples.env_broken fresh_world).1 = Some d
    /\ d ⊆ {[ "FusedAdamBuilder" := Samples.FusedAdamBuilder;
              "AsyncIOBuilder" := Samples.AsyncIOBuilder ]}.
Proof.
  assert (Hpre : all_selected_import Samples.env_broken
                   (package_name Samples.env_broken) ["all_ops"; "async_io"]).
  { repeat constructor; [discriminate | intros _; eexists; reflexivity]. }
  assert (Hext : forall mn, In mn ["all_ops"; "async_io"] ->
            import_module Samples.env_repaired
              (package_name Samples.env_broken +:+ "." +:+ mn)
            = import_module Samples.env_broken
                (package_name Samples.env_broken +:+ "." +:+ mn)).
  { intros mn [<-|[<-|[]]]; reflexivity. }
  destruct (partial_registry_is_prefix Samples.env_broken Samples.env_repaired
              fresh_world fresh_world Samples.package
              ["all_ops"; "async_io"] ["fused_adam"] "broken"
              (ImportError "op_builder.broken")
              eq_refl eq_refl eq_refl eq_refl eq_refl eq_refl eq_refl
              Hpre eq_refl eq_refl Hext)
    as (d & d' & H1 & H2 & H3).
  exists d. split; [by rewrite H1|].
  vm_compute in H2. injection H2 as <-. exact H3.
Defined.
